(** * Tic-tac-toe engine ([oxo_logic.Game]): model and verified properties

    The Python class [Game] of [PostLab4Solution/oxo_logic.py] is embedded
    as a set of computations in a small state-and-exception monad.  The
    state is the instance attribute [self.game] (a Python list of [str])
    together with the state of the persistence module [oxo_data], which the
    class only reaches through [oxo_data.saveGame] and
    [oxo_data.restoreGame]. *)

From Stdlib Require Import ZArith String Ascii List Bool Lia.
From stdpp Require Import base list.
Import ListNotations.

Local Open Scope string_scope.
Local Open Scope list_scope.
Local Open Scope Z_scope.

(** ** Python values used by the class *)

(** A cell is a Python [str]; a board is a Python list of them. *)
Abbreviation cell := string (only parsing).
Abbreviation board := (list string) (only parsing).

(** [list(s)] for a Python string: one single-character string per
    character. *)
Fixpoint pylist (s : string) : board :=
  match s with
  | EmptyString => []
  | String c s' => String c EmptyString :: pylist s'
  end.

(** [''.join(l)]. *)
Definition pyjoin (l : board) : string := fold_right String.append "" l.

(** The exception classes that occur.  [IOError] is Python 3's alias of
    [OSError]; [FileNotFoundError] is one of its subclasses. *)
Inductive exn : Type :=
| ValueError (msg : string)
| IndexError (msg : string)
| OSError
| FileNotFoundError.

(** [isinstance(e, IOError)]. *)
Definition isinstance_IOError (e : exn) : bool :=
  match e with
  | OSError | FileNotFoundError => true
  | ValueError _ | IndexError _ => false
  end.

Inductive outcome (A : Type) : Type :=
| Ret (a : A)
| Raise (e : exn).
Arguments Ret {A} a.
Arguments Raise {A} e.

Definition raised {A : Type} (o : outcome A) : bool :=
  match o with Ret _ => false | Raise _ => true end.

(** [isinstance(e, ValueError)]. *)
Definition isinstance_ValueError (e : exn) : bool :=
  match e with
  | ValueError _ => true
  | IndexError _ | OSError | FileNotFoundError => false
  end.

(** What a call of [print] writes: [print(self.game)] writes the board,
    any other call a text ([print("Winner is:", result)] writes the two
    strings with a space between them). *)
Inductive line : Type :=
| print_game (g : list string)
| print_text (s : string).

(** Index normalisation of [l[i]] for a list of length [n]: indices
    [0 .. n-1] are used as they are, [-n .. -1] count from the end, anything
    else is an [IndexError]. *)
Definition norm_index (n : nat) (i : Z) : option nat :=
  if (0 <=? i) && (i <? Z.of_nat n) then Some (Z.to_nat i)
  else if (- Z.of_nat n <=? i) && (i <? 0) then Some (Z.to_nat (Z.of_nat n + i))
  else None.

(** [random.choice(options)] with the draw [r] made explicit: the element
    at position [r mod len(options)].  An empty sequence raises
    [IndexError]. *)
Definition random_choice (r : nat) (options : list Z) : outcome Z :=
  match options with
  | [] => Raise (IndexError "Cannot choose from an empty sequence")
  | _ :: _ => Ret (nth (r mod length options)%nat options (-1))
  end.

(** ** The persistence module as an interface

    [oxo_logic] imports [oxo_data] and calls its two functions; each of
    them may return or raise, and may change the stored data. *)
Class Persistence (Store : Type) : Type := {
  data_saveGame : board -> Store -> outcome unit * Store;
  data_restoreGame : Store -> outcome board * Store
}.

(** ** The state-and-exception monad *)

Record World (Store : Type) : Type := mkWorld {
  self_game : board;
  store : Store
}.
Arguments mkWorld {Store} _ _.
Arguments self_game {Store} _.
Arguments store {Store} _.

Definition M (Store A : Type) : Type := World Store -> outcome A * World Store.

Section Monad.
Context {Store : Type}.

Definition ret {A : Type} (a : A) : M Store A := fun w => (Ret a, w).

Definition raise {A : Type} (e : exn) : M Store A := fun w => (Raise e, w).

Definition bind {A B : Type} (m : M Store A) (k : A -> M Store B) : M Store B :=
  fun w =>
    match m w with
    | (Ret a, w') => k a w'
    | (Raise e, w') => (Raise e, w')
    end.

(** [try: body except C: handler]: the handler runs in the state the
    body left behind; exceptions outside class [C] pass through. *)
Definition try_except {A : Type} (body : M Store A) (C : exn -> bool)
    (handler : M Store A) : M Store A :=
  fun w =>
    match body w with
    | (Ret a, w') => (Ret a, w')
    | (Raise e, w') => if C e then handler w' else (Raise e, w')
    end.

(** Reading and assigning the attribute [self.game]. *)
Definition get_game : M Store board := fun w => (Ret (self_game w), w).

Definition set_game (g : board) : M Store unit :=
  fun w => (Ret tt, mkWorld g (store w)).

(** [self.game[i]]. *)
Definition getitem (i : Z) : M Store cell :=
  fun w =>
    match norm_index (length (self_game w)) i with
    | Some k =>
        match self_game w !! k with
        | Some c => (Ret c, w)
        | None => (Raise (IndexError "list index out of range"), w)
        end
    | None => (Raise (IndexError "list index out of range"), w)
    end.

(** [self.game[i] = c], in place. *)
Definition setitem (i : Z) (c : cell) : M Store unit :=
  fun w =>
    match norm_index (length (self_game w)) i with
    | Some k => (Ret tt, mkWorld (<[k := c]> (self_game w)) (store w))
    | None => (Raise (IndexError "list assignment index out of range"), w)
    end.
End Monad.

Notation "'let*' x ':=' m 'in' k" := (bind m (fun x => k))
  (at level 10, x name, m at level 100, k at level 200, only parsing).

(** ** class Game *)

Module Game.
Section Methods.
Context {Store : Type} {P : Persistence Store}.

(** [[" "] * 9]. *)
Definition blank_board : board := repeat " " 9.

(** [Game(game)]: the attribute [self.game] after [__init__].  The
    argument is [None] or a list; [None] and the empty list are falsy. *)
Definition __init__ (game : option board) : board :=
  match game with
  | Some g =>
      if negb (length g =? 0)%nat && (length g =? 9)%nat then g
      else blank_board
  | None => blank_board
  end.

Definition newGame : M Store board :=
  let* _ := set_game blank_board in
  get_game.

(** The two calls into [oxo_data], acting on the store only. *)
Definition call_data_saveGame (g : board) : M Store unit :=
  fun w =>
    let (o, s) := data_saveGame g (store w) in (o, mkWorld (self_game w) s).

Definition call_data_restoreGame : M Store board :=
  fun w =>
    let (o, s) := data_restoreGame (store w) in (o, mkWorld (self_game w) s).

Definition saveGame : M Store unit :=
  let* g := get_game in
  call_data_saveGame g.

Definition restoreGame : M Store board :=
  let* _ :=
    try_except
      (let* game := call_data_restoreGame in
       if (length game =? 9)%nat then set_game game
       else let* _ := newGame in ret tt)
      isinstance_IOError
      (let* _ := newGame in ret tt) in
  get_game.

(** The list comprehension of [_generateMove]. *)
Definition options (g : board) : list Z :=
  map Z.of_nat
    (List.filter (fun i => match g !! i with
                           | Some c => (c =? " ")%string
                           | None => false
                           end)
                 (seq 0 (length g))).

Definition _generateMove (r : nat) : M Store Z :=
  let* g := get_game in
  match options g with
  | [] => ret (-1)
  | opts => fun w => (random_choice r opts, w)
  end.

Definition wins : list (Z * Z * Z) :=
  [ (0, 1, 2); (3, 4, 5); (6, 7, 8);
    (0, 3, 6); (1, 4, 7); (2, 5, 8);
    (0, 4, 8); (2, 4, 6) ].

(** The [for a, b, c in wins] loop. *)
Fixpoint scan (ws : list (Z * Z * Z)) : M Store bool :=
  match ws with
  | [] => ret false
  | (a, b, c) :: ws' =>
      let* ga := getitem a in
      let* gb := getitem b in
      let* gc := getitem c in
      let chars := ((ga ++ gb) ++ gc)%string in
      if (chars =? "XXX")%string || (chars =? "OOO")%string then ret true
      else scan ws'
  end.

Definition _isWinningMove : M Store bool := scan wins.

Definition userMove (cell : Z) : M Store string :=
  let* c := getitem cell in
  let* _ := (if negb (c =? " ")%string then raise (ValueError "Invalid cell")
             else setitem cell "X") in
  let* w := _isWinningMove in
  if w then ret "X" else ret "".

Definition computerMove (r : nat) : M Store string :=
  let* cell := _generateMove r in
  if cell =? -1 then ret "D"
  else
    let* _ := setitem cell "O" in
    let* w := _isWinningMove in
    if w then ret "O" else ret "".
(** The [try] statement of [playTest]: the result of the user's move on
    the cell [_generateMove] picks, what the handler prints, and the state.
    A caught [ValueError] leaves [result] as it was, the empty string. *)
Definition user_turn (r : nat) (w : World Store)
  : outcome string * list line * World Store :=
  match (let* cell := _generateMove r in userMove cell) w with
  | (Ret result, w1) => (Ret result, [], w1)
  | (Raise e, w1) =>
      if isinstance_ValueError e
      then (Ret "", [print_text "Oops, that shouldn't happen"], w1)
      else (Raise e, [], w1)
  end.

(** The [while not result] loop of [playTest], entered with an empty
    [result].  [draws k] is the draw of the [k]-th call of [_generateMove];
    [out] is what has been printed so far; [None] when [fuel] iterations
    were not enough. *)
Fixpoint playTest_loop (fuel : nat) (draws : nat -> nat) (n : nat)
    (out : list line) (w : World Store)
  : option (list line * outcome unit * World Store) :=
  match fuel with
  | O => None
  | S fuel' =>
      let out := out ++ [print_game (self_game w)] in
      match user_turn (draws n) w with
      | (Raise e, _, w1) => Some (out, Raise e, w1)
      | (Ret result, printed, w1) =>
          let out := out ++ printed in
          match (if (result =? "")%string then computerMove (draws (S n)) w1
                 else (Ret result, w1)) with
          | (Raise e, w2) => Some (out, Raise e, w2)
          | (Ret result, w2) =>
              if (result =? "")%string
              then playTest_loop fuel' draws (S (S n)) out w2
              else
                let out :=
                  out ++ [if (result =? "D")%string
                          then print_text "It's a draw"
                          else print_text ("Winner is: " ++ result)%string] in
                Some (out ++ [print_game (self_game w2)], Ret tt, w2)
          end
      end
  end.

Definition playTest (fuel : nat) (draws : nat -> nat) (w : World Store)
  : option (list line * outcome unit * World Store) :=
  let (_, w0) := newGame w in
  playTest_loop fuel draws 0 [] w0.
End Methods.
End Game.

(** ** The persistence module [oxo_data] *)

Module oxo_data.
(** Modelled from the spec: the module [oxo_data] (its functions
    [saveGame] and [restoreGame] and the file they use) is not among the
    sources.  The persisted snapshot is the whole content of one file, a
    sequence of single characters without header or delimiter; there is
    one save slot.  [file] is [None] while no snapshot exists. *)
Record Disk : Type := mkDisk {
  file : option string;
  writable : bool;
  read_error : bool
}.

(** Modelled from the spec: [store(snapshot)] of the missing module
    [oxo_data] writes the symbol sequence to the fixed location,
    overwriting any prior snapshot, and fails with an I/O failure when the
    target is not writable. *)
Definition saveGame (game : board) (d : Disk) : outcome unit * Disk :=
  if writable d then
    (Ret tt, mkDisk (Some (pyjoin game)) (writable d) (read_error d))
  else (Raise OSError, d).

(** Modelled from the spec: [load()] of the missing module [oxo_data]
    returns the most recently stored snapshot, and fails with "not found"
    when no snapshot exists or with an I/O failure on a read error. *)
Definition restoreGame (d : Disk) : outcome board * Disk :=
  match file d with
  | None => (Raise FileNotFoundError, d)
  | Some s => if read_error d then (Raise OSError, d) else (Ret (pylist s), d)
  end.

#[global] Instance persistence : Persistence Disk := {|
  data_saveGame := saveGame;
  data_restoreGame := restoreGame
|}.
End oxo_data.

(** ** [InLab4Solution/testcode.py] *)

Module testcode.
(** [double(x)] on Python integers. *)
Definition double (x : Z) : Z := 2 * x.

(** The outcome of a test method: every assertion held, or the first
    [assertEqual(first, second)] that did not. *)
Inductive verdict : Type :=
| passed
| failed (first second : Z).

(** A sequence of [self.assertEqual(first, second)] statements. *)
Fixpoint assertEquals (checks : list (Z * Z)) : verdict :=
  match checks with
  | [] => passed
  | (first, second) :: rest =>
      if first =? second then assertEquals rest else failed first second
  end.

(** [TestDouble.test_double]. *)
Definition test_double : verdict :=
  assertEquals [ (double 2, 4); (double 4, 8); (double 0, 0); (double (-2), -5) ].
End testcode.

(** ** Specification vocabulary *)

(** The three symbols a cell of a well-formed board holds. *)
Definition symbol (c : cell) : Prop := c = " " \/ c = "X" \/ c = "O".

(** All three cells of a triple hold the string [s]. *)
Definition completed_by (s : cell) (g : board) (t : Z * Z * Z) : Prop :=
  let '(a, b, c) := t in
  g !! Z.to_nat a = Some s /\ g !! Z.to_nat b = Some s /\ g !! Z.to_nat c = Some s.

(** A triple holds three identical non-blank symbols. *)
Definition completed (g : board) (t : Z * Z * Z) : Prop :=
  exists s : cell, s <> " " /\ completed_by s g t.

(** The test of one loop iteration of [_isWinningMove], on a board where
    the three cells exist. *)
Definition triple_wins (g : board) (t : Z * Z * Z) : bool :=
  let '(a, b, c) := t in
  match g !! Z.to_nat a, g !! Z.to_nat b, g !! Z.to_nat c with
  | Some ga, Some gb, Some gc =>
      let chars := ((ga ++ gb) ++ gc)%string in
      (chars =? "XXX")%string || (chars =? "OOO")%string
  | _, _, _ => false
  end.

(** Some triple passes the test. *)
Definition has_line (g : board) : bool := existsb (triple_wins g) Game.wins.

(** The three indices of a triple are cell indices of the 3x3 grid. *)
Definition in_grid (t : Z * Z * Z) : Prop :=
  let '(a, b, c) := t in 0 <= a < 9 /\ 0 <= b < 9 /\ 0 <= c < 9.

(** The board has a blank cell. *)
Definition has_blank (g : board) : Prop := exists k : nat, g !! k = Some " ".

(** The number of cells of a board that hold the string [x]. *)
Definition count (x : cell) (g : board) : nat := count_occ string_dec g x.

(** The triple [t] runs through cell [k]. *)
Definition through (k : nat) (t : Z * Z * Z) : Prop :=
  let '(a, b, c) := t in Z.to_nat a = k \/ Z.to_nat b = k \/ Z.to_nat c = k.

(** The last two lines [playTest] prints, on the final board [g]: a draw
    is announced on a full board without a line, a winner on a board with a
    line. *)
Definition game_over (ending : list line) (g : board) : Prop :=
  (ending = [print_text "It's a draw"; print_game g] /\
   ~ has_blank g /\ has_line g = false) \/
  (exists r : string,
     (r = "X" \/ r = "O") /\
     ending = [print_text ("Winner is: " ++ r)%string; print_game g] /\
     has_line g = true).

(** A persistence module whose two functions raise [e], as the test suite
    obtains by patching [oxo_data]; it stores nothing. *)
Definition raising_persistence (e : exn) : Persistence unit :=
  {| data_saveGame := fun _ s => (Raise e, s);
     data_restoreGame := fun s => (Raise e, s) |}.

(** The engine state of the test suite: the board [list(s)] over a
    readable and writable disk holding the file content [saved]. *)
Definition world_of (s : string) (saved : option string) : World oxo_data.Disk :=
  mkWorld (pylist s) (oxo_data.mkDisk saved true false).

(** Proves [Forall symbol] of a literal board. *)
Ltac symbols :=
  simpl; repeat (apply List.Forall_cons; [unfold symbol; auto|]);
  apply List.Forall_nil.

(** ** Basic facts about the monad and list indexing *)

Section Basics.
Context {Store : Type}.
Implicit Types (w : World Store) (g : board).

Lemma bind_ret_run {A B : Type} (m : M Store A) (k : A -> M Store B) w a w' :
  m w = (Ret a, w') -> bind m k w = k a w'.
Proof. intros H. unfold bind. now rewrite H. Qed.

Lemma bind_raise_run {A B : Type} (m : M Store A) (k : A -> M Store B) w e w' :
  m w = (Raise e, w') -> bind m k w = (Raise e, w').
Proof. intros H. unfold bind. now rewrite H. Qed.

Lemma norm_index_in_range (n : nat) (i : Z) :
  0 <= i < Z.of_nat n -> norm_index n i = Some (Z.to_nat i).
Proof.
  intros [H0 H1]. unfold norm_index.
  destruct (Z.leb_spec 0 i); [|lia].
  destruct (Z.ltb_spec i (Z.of_nat n)); [|lia].
  reflexivity.
Qed.

Lemma getitem_in_range w (i : Z) (c : cell) :
  0 <= i < Z.of_nat (length (self_game w)) ->
  self_game w !! Z.to_nat i = Some c ->
  getitem i w = (Ret c, w).
Proof.
  intros Hi Hc. unfold getitem.
  rewrite (norm_index_in_range _ _ Hi). now rewrite Hc.
Qed.

Lemma getitem_state w (i : Z) : snd (getitem i w) = w.
Proof.
  unfold getitem. destruct (norm_index _ i) as [k|]; [|reflexivity].
  now destruct (self_game w !! k).
Qed.

Lemma setitem_in_range w (i : Z) (c : cell) :
  0 <= i < Z.of_nat (length (self_game w)) ->
  setitem i c w = (Ret tt, mkWorld (<[Z.to_nat i := c]> (self_game w)) (store w)).
Proof.
  intros Hi. unfold setitem. now rewrite (norm_index_in_range _ _ Hi).
Qed.

Lemma setitem_length w (i : Z) (c : cell) :
  length (self_game (snd (setitem i c w))) = length (self_game w).
Proof.
  unfold setitem. destruct (norm_index _ i); simpl; [|reflexivity].
  apply length_insert.
Qed.
End Basics.

(** ** Win detection *)

Section WinDetection.
Context {Store : Type} {P : Persistence Store}.
Implicit Types (w : World Store) (g : board).

Lemma wins_in_grid : Forall in_grid Game.wins.
Proof. unfold Game.wins. repeat constructor; simpl; lia. Qed.

Lemma lookup_in_grid g (a : Z) :
  length g = 9%nat -> 0 <= a < 9 -> exists c, g !! Z.to_nat a = Some c.
Proof.
  intros Hlen Ha. destruct (lookup_lt_is_Some_2 g (Z.to_nat a)) as [c Hc]; [lia|].
  now exists c.
Qed.

(** The loop never assigns to the board. *)
Lemma scan_state (ws : list (Z * Z * Z)) w : snd (Game.scan ws w) = w.
Proof.
  induction ws as [|[[a b] c] ws IH]; [reflexivity|].
  simpl. unfold bind.
  pose proof (getitem_state w a) as Ha.
  destruct (getitem a w) as [[ga|e] w1]; simpl in Ha; subst w1; [|reflexivity].
  pose proof (getitem_state w b) as Hb.
  destruct (getitem b w) as [[gb|e] w1]; simpl in Hb; subst w1; [|reflexivity].
  pose proof (getitem_state w c) as Hc.
  destruct (getitem c w) as [[gc|e] w1]; simpl in Hc; subst w1; [|reflexivity].
  destruct (_ || _); [reflexivity | exact IH].
Qed.

(** On a 9-cell board the loop runs to completion and computes
    [existsb triple_wins]. *)
Lemma scan_run (ws : list (Z * Z * Z)) w :
  length (self_game w) = 9%nat -> Forall in_grid ws ->
  Game.scan ws w = (Ret (existsb (triple_wins (self_game w)) ws), w).
Proof.
  intros Hlen Hws. induction Hws as [|[[a b] c] ws (Ha & Hb & Hc) _ IH];
    [reflexivity|].
  destruct (lookup_in_grid _ a Hlen Ha) as [ga Hga].
  destruct (lookup_in_grid _ b Hlen Hb) as [gb Hgb].
  destruct (lookup_in_grid _ c Hlen Hc) as [gc Hgc].
  cbn [Game.scan existsb triple_wins].
  rewrite Hga, Hgb, Hgc.
  rewrite (bind_ret_run _ _ w ga w) by (apply getitem_in_range; [lia|exact Hga]).
  rewrite (bind_ret_run _ _ w gb w) by (apply getitem_in_range; [lia|exact Hgb]).
  rewrite (bind_ret_run _ _ w gc w) by (apply getitem_in_range; [lia|exact Hgc]).
  cbv zeta.
  destruct (_ || _); [reflexivity | exact IH].
Qed.

Lemma isWinningMove_run w :
  length (self_game w) = 9%nat ->
  Game._isWinningMove w = (Ret (has_line (self_game w)), w).
Proof. intros Hlen. apply scan_run; [exact Hlen | apply wins_in_grid]. Qed.

(** On a board of symbols, one triple passes the test exactly when it is
    completed. *)
Lemma triple_wins_completed g (t : Z * Z * Z) :
  length g = 9%nat -> Forall symbol g -> in_grid t ->
  triple_wins g t = true <-> completed g t.
Proof.
  intros Hlen Hsym. destruct t as [[a b] c]. intros (Ha & Hb & Hc).
  destruct (lookup_in_grid _ a Hlen Ha) as [ga Hga].
  destruct (lookup_in_grid _ b Hlen Hb) as [gb Hgb].
  destruct (lookup_in_grid _ c Hlen Hc) as [gc Hgc].
  pose proof (proj1 (Forall_lookup _ _) Hsym _ _ Hga) as Sa.
  pose proof (proj1 (Forall_lookup _ _) Hsym _ _ Hgb) as Sb.
  pose proof (proj1 (Forall_lookup _ _) Hsym _ _ Hgc) as Sc.
  unfold triple_wins, completed, completed_by. rewrite Hga, Hgb, Hgc.
  destruct Sa as [-> | [-> | ->]], Sb as [-> | [-> | ->]],
    Sc as [-> | [-> | ->]]; simpl;
    (split;
     [ first [ discriminate
             | intros _; eexists; split; [|repeat split; reflexivity];
               discriminate ]
     | intros (s & Hs & E1 & E2 & E3); congruence ]).
Qed.

Lemma has_line_completed g :
  length g = 9%nat -> Forall symbol g ->
  has_line g = true <-> exists t, In t Game.wins /\ completed g t.
Proof.
  intros Hlen Hsym. unfold has_line. rewrite existsb_exists.
  split; intros (t & Ht & H); exists t; (split; [exact Ht|]);
    apply (triple_wins_completed g t Hlen Hsym);
    try (apply (proj1 (List.Forall_forall _ _) wins_in_grid); exact Ht);
    exact H.
Qed.

(** A triple all of whose cells hold ["X"], or all ["O"], passes the
    test, whatever the other cells hold. *)
Lemma completed_by_triple_wins g (t : Z * Z * Z) (s : cell) :
  s = "X" \/ s = "O" -> completed_by s g t -> triple_wins g t = true.
Proof.
  destruct t as [[a b] c]. unfold completed_by, triple_wins.
  intros Hs (-> & -> & ->). now destruct Hs as [-> | ->].
Qed.

(** Writing to a cell that does not hold [s] keeps a triple completed by
    [s]. *)
Lemma completed_by_insert g (t : Z * Z * Z) (s c : cell) (k : nat) :
  completed_by s g t -> g !! k <> Some s -> completed_by s (<[k := c]> g) t.
Proof.
  destruct t as [[a b] c']. unfold completed_by. intros (Ha & Hb & Hc) Hk.
  repeat split; rewrite list_lookup_insert_ne; try assumption;
    intros ->; congruence.
Qed.
End WinDetection.

(** ** Moves *)

Section Moves.
Context {Store : Type} {P : Persistence Store}.
Implicit Types (w : World Store) (g : board).

Lemma In_options g (z : Z) :
  In z (Game.options g) <-> exists k : nat, z = Z.of_nat k /\ g !! k = Some " ".
Proof.
  unfold Game.options. rewrite List.in_map_iff. split.
  - intros (k & <- & Hk). apply List.filter_In in Hk as [_ Hf].
    exists k. split; [reflexivity|].
    destruct (g !! k) as [c|]; [|discriminate].
    apply String.eqb_eq in Hf. now subst c.
  - intros (k & -> & Hk). exists k. split; [reflexivity|].
    apply List.filter_In. split.
    + apply List.in_seq. apply lookup_lt_Some in Hk. lia.
    + rewrite Hk. apply String.eqb_refl.
Qed.

Lemma options_nil g : Game.options g = [] <-> ~ has_blank g.
Proof.
  split.
  - intros H (k & Hk).
    assert (In (Z.of_nat k) (Game.options g)) as Hin
      by (apply In_options; eauto).
    rewrite H in Hin. exact Hin.
  - intros H. destruct (Game.options g) as [|z opts] eqn:E; [reflexivity|].
    exfalso. apply H.
    assert (In z (Game.options g)) as Hin by (rewrite E; now left).
    apply In_options in Hin as (k & _ & Hk). now exists k.
Qed.

Lemma random_choice_In (r : nat) (opts : list Z) :
  opts <> [] -> exists z, random_choice r opts = Ret z /\ In z opts.
Proof.
  destruct opts as [|z opts]; [congruence|]. intros _.
  eexists. split; [reflexivity|].
  apply List.nth_In. apply Nat.mod_upper_bound. discriminate.
Qed.

(** Every element of a non-empty option list is drawn by some [r]. *)
Lemma random_choice_any (opts : list Z) (z : Z) :
  In z opts -> exists r : nat, random_choice r opts = Ret z.
Proof.
  intros Hin. destruct (List.In_nth _ _ (-1) Hin) as (n & Hn & Hz).
  exists n. destruct opts as [|z0 opts]; [contradiction|].
  unfold random_choice. now rewrite Nat.mod_small, Hz.
Qed.

Lemma generateMove_full (r : nat) w :
  ~ has_blank (self_game w) -> Game._generateMove r w = (Ret (-1), w).
Proof.
  intros H. apply options_nil in H.
  unfold Game._generateMove, bind, get_game. now rewrite H.
Qed.

Lemma generateMove_blank (r : nat) w :
  has_blank (self_game w) ->
  exists k : nat, self_game w !! k = Some " " /\
                  Game._generateMove r w = (Ret (Z.of_nat k), w).
Proof.
  intros H.
  assert (Game.options (self_game w) <> []) as Hne
    by (intros E; now apply options_nil in E).
  destruct (random_choice_In r _ Hne) as (z & Hz & Hin).
  apply In_options in Hin as (k & -> & Hk). exists k. split; [exact Hk|].
  unfold Game._generateMove, bind, get_game.
  destruct (Game.options (self_game w)); [congruence|]. now rewrite Hz.
Qed.

(** [_generateMove] never assigns to the board. *)
Lemma generateMove_state (r : nat) w : snd (Game._generateMove r w) = w.
Proof.
  unfold Game._generateMove, bind, get_game.
  now destruct (Game.options (self_game w)).
Qed.

Lemma userMove_occupied w (i : Z) (c : cell) :
  0 <= i < Z.of_nat (length (self_game w)) ->
  self_game w !! Z.to_nat i = Some c -> c <> " " ->
  Game.userMove i w = (Raise (ValueError "Invalid cell"), w).
Proof.
  intros Hi Hc Hne. unfold Game.userMove.
  rewrite (bind_ret_run _ _ w c w) by now apply getitem_in_range.
  apply String.eqb_neq in Hne. now rewrite Hne.
Qed.

Lemma userMove_blank w (i : Z) :
  length (self_game w) = 9%nat -> 0 <= i < 9 ->
  self_game w !! Z.to_nat i = Some " " ->
  Game.userMove i w =
    (Ret (if has_line (<[Z.to_nat i := "X"]> (self_game w)) then "X" else ""),
     mkWorld (<[Z.to_nat i := "X"]> (self_game w)) (store w)).
Proof.
  intros Hlen Hi Hc. unfold Game.userMove.
  rewrite (bind_ret_run _ _ w " " w) by (apply getitem_in_range; [lia|exact Hc]).
  cbn [String.eqb Ascii.eqb Bool.eqb negb].
  erewrite bind_ret_run by (apply setitem_in_range; lia).
  erewrite bind_ret_run
    by (apply isWinningMove_run; simpl; now rewrite length_insert).
  simpl. now destruct (has_line _).
Qed.

Lemma computerMove_full (r : nat) w :
  ~ has_blank (self_game w) -> Game.computerMove r w = (Ret "D", w).
Proof.
  intros H. unfold Game.computerMove.
  now rewrite (bind_ret_run _ _ w (-1) w) by now apply generateMove_full.
Qed.

(** What [computerMove] does once [_generateMove] has picked cell [k]. *)
Lemma computerMove_at (r : nat) w (k : nat) :
  length (self_game w) = 9%nat -> (k < 9)%nat ->
  Game._generateMove r w = (Ret (Z.of_nat k), w) ->
  Game.computerMove r w =
    (Ret (if has_line (<[k := "O"]> (self_game w)) then "O" else ""),
     mkWorld (<[k := "O"]> (self_game w)) (store w)).
Proof.
  intros Hlen Hlt Hgen.
  unfold Game.computerMove. rewrite (bind_ret_run _ _ _ _ _ Hgen).
  destruct (Z.eqb_spec (Z.of_nat k) (-1)) as [E|_]; [lia|].
  erewrite bind_ret_run by (apply setitem_in_range; lia).
  rewrite Nat2Z.id.
  erewrite bind_ret_run
    by (apply isWinningMove_run; simpl; now rewrite length_insert).
  simpl. now destruct (has_line _).
Qed.

Lemma computerMove_blank (r : nat) w :
  length (self_game w) = 9%nat -> has_blank (self_game w) ->
  exists k : nat,
    self_game w !! k = Some " " /\
    Game.computerMove r w =
      (Ret (if has_line (<[k := "O"]> (self_game w)) then "O" else ""),
       mkWorld (<[k := "O"]> (self_game w)) (store w)).
Proof.
  intros Hlen H. destruct (generateMove_blank r w H) as (k & Hk & Hgen).
  exists k. split; [exact Hk|].
  pose proof (lookup_lt_Some _ _ _ Hk) as Hlt.
  apply computerMove_at; [exact Hlen | lia | exact Hgen].
Qed.

(** The explicit draw loses nothing: every blank cell is the one filled
    for some draw. *)
Lemma computerMove_any_blank w (k : nat) :
  length (self_game w) = 9%nat -> self_game w !! k = Some " " ->
  exists r : nat,
    Game.computerMove r w =
      (Ret (if has_line (<[k := "O"]> (self_game w)) then "O" else ""),
       mkWorld (<[k := "O"]> (self_game w)) (store w)).
Proof.
  intros Hlen Hk.
  assert (In (Z.of_nat k) (Game.options (self_game w))) as Hin
    by (apply In_options; eauto).
  destruct (random_choice_any _ _ Hin) as [r Hr]. exists r.
  pose proof (lookup_lt_Some _ _ _ Hk) as Hlt.
  apply computerMove_at; [exact Hlen | lia |].
  unfold Game._generateMove, bind, get_game.
  destruct (Game.options (self_game w)); [contradiction|]. now rewrite Hr.
Qed.

(** Neither move changes the number of cells or the store, whatever the
    argument and the outcome. *)
Lemma userMove_length w (i : Z) :
  length (self_game (snd (Game.userMove i w))) = length (self_game w).
Proof.
  unfold Game.userMove, bind.
  pose proof (getitem_state w i) as Hg.
  destruct (getitem i w) as [[c|e] w1]; simpl in Hg; subst w1; [|reflexivity].
  destruct (negb _); [reflexivity|].
  pose proof (setitem_length w i "X") as Hs.
  destruct (setitem i "X" w) as [[[]|e] w1]; simpl in Hs; [|exact Hs].
  pose proof (scan_state Game.wins w1) as Hw. unfold Game._isWinningMove.
  destruct (Game.scan Game.wins w1) as [[[|]|e] w2]; simpl in Hw; subst w2;
    exact Hs.
Qed.

Lemma computerMove_length (r : nat) w :
  length (self_game (snd (Game.computerMove r w))) = length (self_game w).
Proof.
  unfold Game.computerMove, bind.
  pose proof (generateMove_state r w) as Hg.
  destruct (Game._generateMove r w) as [[z|e] w1]; simpl in Hg; subst w1;
    [|reflexivity].
  destruct (z =? -1); [reflexivity|].
  pose proof (setitem_length w z "O") as Hs.
  destruct (setitem z "O" w) as [[[]|e] w1]; simpl in Hs; [|exact Hs].
  pose proof (scan_state Game.wins w1) as Hw. unfold Game._isWinningMove.
  destruct (Game.scan Game.wins w1) as [[[|]|e] w2]; simpl in Hw; subst w2;
    exact Hs.
Qed.
End Moves.

(** ** Restoring *)

Section Restore.
Context {Store : Type} {P : Persistence Store}.
Implicit Types (w : World Store) (g : board).

Lemma newGame_run w :
  Game.newGame w = (Ret Game.blank_board, mkWorld Game.blank_board (store w)).
Proof. reflexivity. Qed.

Lemma restoreGame_loaded w (snap : board) (s' : Store) :
  data_restoreGame (store w) = (Ret snap, s') -> length snap = 9%nat ->
  Game.restoreGame w = (Ret snap, mkWorld snap s').
Proof.
  intros Hload Hlen.
  unfold Game.restoreGame, try_except, bind, Game.call_data_restoreGame.
  rewrite Hload. apply Nat.eqb_eq in Hlen. now rewrite Hlen.
Qed.

Lemma restoreGame_wrong_length w (snap : board) (s' : Store) :
  data_restoreGame (store w) = (Ret snap, s') -> length snap <> 9%nat ->
  Game.restoreGame w = (Ret Game.blank_board, mkWorld Game.blank_board s').
Proof.
  intros Hload Hlen.
  unfold Game.restoreGame, try_except, bind, Game.call_data_restoreGame.
  rewrite Hload. apply Nat.eqb_neq in Hlen. now rewrite Hlen.
Qed.

Lemma restoreGame_IOError w (e : exn) (s' : Store) :
  data_restoreGame (store w) = (Raise e, s') -> isinstance_IOError e = true ->
  Game.restoreGame w = (Ret Game.blank_board, mkWorld Game.blank_board s').
Proof.
  intros Hload He.
  unfold Game.restoreGame, try_except, bind, Game.call_data_restoreGame.
  rewrite Hload. now rewrite He.
Qed.

(** An exception outside [IOError] is not caught; the board is as it was. *)
Lemma restoreGame_other_exception w (e : exn) (s' : Store) :
  data_restoreGame (store w) = (Raise e, s') -> isinstance_IOError e = false ->
  Game.restoreGame w = (Raise e, mkWorld (self_game w) s').
Proof.
  intros Hload He.
  unfold Game.restoreGame, try_except, bind, Game.call_data_restoreGame.
  rewrite Hload. now rewrite He.
Qed.

Lemma restoreGame_length w :
  length (self_game w) = 9%nat ->
  length (self_game (snd (Game.restoreGame w))) = 9%nat.
Proof.
  intros Hlen.
  destruct (data_restoreGame (store w)) as [[snap|e] s'] eqn:Hload.
  - destruct (Nat.eq_dec (length snap) 9%nat) as [H9|H9].
    + now rewrite (restoreGame_loaded _ _ _ Hload H9).
    + now rewrite (restoreGame_wrong_length _ _ _ Hload H9).
  - destruct (isinstance_IOError e) eqn:He.
    + now rewrite (restoreGame_IOError _ _ _ Hload He).
    + now rewrite (restoreGame_other_exception _ _ _ Hload He).
Qed.
End Restore.

(** Joining single-character cells and splitting again gives the cells
    back. *)
Lemma pylist_pyjoin (g : board) : Forall symbol g -> pylist (pyjoin g) = g.
Proof.
  induction 1 as [|c g Hc _ IH]; [reflexivity|].
  unfold pyjoin in *. destruct Hc as [-> | [-> | ->]]; simpl; now rewrite IH.
Qed.

(** ** Properties of [userMove] *)

Section UserMove.
Context {Store : Type}.
Implicit Types (w : World Store).

(** Claim C1.  On a 9-cell board and for a cell index between 0 and 8,
    [userMove] raises [ValueError("Invalid cell")] and leaves the whole
    state as it was exactly when the targeted cell is not blank; it raises
    nothing at all when the cell is blank. *)
Theorem userMove_invalid_iff_occupied w (i : Z) :
  length (self_game w) = 9%nat -> 0 <= i <= 8 ->
  (Game.userMove i w = (Raise (ValueError "Invalid cell"), w)
     <-> self_game w !! Z.to_nat i <> Some " ") /\
  (raised (fst (Game.userMove i w)) = true
     <-> self_game w !! Z.to_nat i <> Some " ").
Proof.
  intros Hlen Hi.
  destruct (lookup_in_grid (self_game w) i Hlen ltac:(lia)) as [c Hc].
  destruct (String.eqb_spec c " ") as [-> | Hne].
  - rewrite (userMove_blank w i Hlen ltac:(lia) Hc), Hc. simpl.
    split; split; first [discriminate | congruence].
  - rewrite (userMove_occupied w i c ltac:(lia) Hc Hne), Hc. simpl.
    split; split; intros _; first [reflexivity | congruence].
Qed.

(** Claim C8.  After [newGame()], [userMove(i)] for any [i] between 0 and
    8 returns the empty string, cell [i] holds ["X"] and every other cell
    is blank. *)
Theorem newGame_then_userMove w (i : Z) :
  0 <= i <= 8 ->
  exists w1 w2 : World Store,
    Game.newGame w = (Ret Game.blank_board, w1) /\
    Game.userMove i w1 = (Ret "", w2) /\
    self_game w2 !! Z.to_nat i = Some "X" /\
    (forall j : nat, (j < 9)%nat -> j <> Z.to_nat i ->
                     self_game w2 !! j = Some " ") /\
    length (self_game w2) = 9%nat /\
    store w2 = store w.
Proof.
  intros Hi.
  exists (mkWorld Game.blank_board (store w)).
  exists (mkWorld (<[Z.to_nat i := "X"]> Game.blank_board) (store w)).
  assert (i = 0 \/ i = 1 \/ i = 2 \/ i = 3 \/ i = 4 \/ i = 5 \/ i = 6 \/
          i = 7 \/ i = 8) as Hcases by lia.
  split; [reflexivity|].
  split.
  - rewrite userMove_blank; simpl;
      [ | reflexivity | lia
        | repeat (destruct Hcases as [-> | Hcases]; [reflexivity|]);
          now subst i ].
    repeat (destruct Hcases as [-> | Hcases]; [reflexivity|]). now subst i.
  - simpl.
    repeat (destruct Hcases as [-> | Hcases];
            [ repeat split; try reflexivity; intros j Hj Hne;
              do 9 (destruct j as [|j]; [first [reflexivity | now elim Hne]|]);
              lia | ]).
    subst i. repeat split; try reflexivity. intros j Hj Hne.
    do 9 (destruct j as [|j]; [first [reflexivity | now elim Hne]|]). lia.
Qed.
End UserMove.

(** ** Properties of [computerMove] *)

Section ComputerMove.
Context {Store : Type}.
Implicit Types (w : World Store).

(** Claim C4.  On a 9-cell board without a blank cell [computerMove]
    returns ["D"] and changes nothing; on a 9-cell board with a blank cell
    it writes ["O"] into one cell that was blank, keeps every other cell,
    and returns ["O"] when win detection succeeds on the new board and the
    empty string otherwise. *)
Theorem computerMove_draw_or_place (r : nat) w :
  length (self_game w) = 9%nat ->
  (~ has_blank (self_game w) -> Game.computerMove r w = (Ret "D", w)) /\
  (has_blank (self_game w) ->
   exists (k : nat) (res : string) (w' : World Store),
     Game.computerMove r w = (Ret res, w') /\
     self_game w !! k = Some " " /\
     self_game w' !! k = Some "O" /\
     (forall j : nat, j <> k -> self_game w' !! j = self_game w !! j) /\
     length (self_game w') = 9%nat /\
     store w' = store w /\
     (res = "O" \/ res = "") /\
     (res = "O" <-> Game._isWinningMove w' = (Ret true, w'))).
Proof.
  intros Hlen. split; [apply computerMove_full|].
  intros Hblank.
  destruct (computerMove_blank r w Hlen Hblank) as (k & Hk & Hrun).
  pose proof (lookup_lt_Some _ _ _ Hk) as Hlt.
  eexists k, _, _. split; [exact Hrun|]. simpl.
  split; [exact Hk|].
  split; [now apply list_lookup_insert_eq|].
  split; [intros j Hj; now apply list_lookup_insert_ne|].
  split; [now rewrite length_insert|].
  split; [reflexivity|].
  rewrite isWinningMove_run by (simpl; now rewrite length_insert). simpl.
  destruct (has_line _); split; try (now left); try (now right);
    split; first [reflexivity | discriminate].
Qed.

(** Claim C10.  On a board without a blank cell, whatever its length and
    whether or not it holds a completed triple, [computerMove] returns
    ["D"] with the state untouched; the result is neither ["O"] nor
    ["X"]. *)
Theorem computerMove_full_board_draw (r : nat) w :
  ~ has_blank (self_game w) ->
  Game.computerMove r w = (Ret "D", w) /\
  fst (Game.computerMove r w) <> Ret "O" /\
  fst (Game.computerMove r w) <> Ret "X".
Proof.
  intros Hfull. rewrite (computerMove_full r w Hfull). simpl.
  repeat split; discriminate.
Qed.
End ComputerMove.

(** ** Win detection and the result label *)

Section ResultLabel.
Context {Store : Type}.
Implicit Types (w : World Store).

(** Claim C3.  On a 9-cell board of symbols, [_isWinningMove] returns
    without changing the state, and its result is [True] exactly when one
    of the eight triples (three rows, three columns, two diagonals) holds
    three identical non-blank symbols; in particular it is [False] on the
    empty board, on any board without a completed triple, and so on a
    full board without one. *)
Theorem isWinningMove_iff_completed_triple w :
  length (self_game w) = 9%nat -> Forall symbol (self_game w) ->
  Game.wins = [ (0, 1, 2); (3, 4, 5); (6, 7, 8);
                (0, 3, 6); (1, 4, 7); (2, 5, 8);
                (0, 4, 8); (2, 4, 6) ] /\
  exists v : bool,
    Game._isWinningMove w = (Ret v, w) /\
    (v = true <-> exists t, In t Game.wins /\ completed (self_game w) t) /\
    (self_game w = Game.blank_board -> v = false) /\
    ((forall t, In t Game.wins -> ~ completed (self_game w) t) -> v = false) /\
    (~ has_blank (self_game w) ->
     (forall t, In t Game.wins -> ~ completed (self_game w) t) -> v = false).
Proof.
  intros Hlen Hsym. split; [reflexivity|].
  exists (has_line (self_game w)).
  split; [now apply isWinningMove_run|].
  pose proof (has_line_completed (self_game w) Hlen Hsym) as Hiff.
  assert ((forall t, In t Game.wins -> ~ completed (self_game w) t) ->
          has_line (self_game w) = false) as Hnone.
  { intros Hno. destruct (has_line (self_game w)); [|reflexivity].
    destruct (proj1 Hiff eq_refl) as (t & Ht & Hc). now elim (Hno t Ht). }
  split; [exact Hiff|].
  split; [intros ->; reflexivity|].
  split; [exact Hnone | intros _; exact Hnone].
Qed.

(** Claim C2, as amended.  On a 9-cell board that already holds a
    completed line of ["O"], [userMove] on any blank cell returns ["X"];
    on one that already holds a completed line of ["X"], [computerMove]
    returns ["O"] whenever a blank cell is left.  In general the move
    returns the label of the symbol just placed exactly when the board
    after the placement passes win detection, for a line of either
    symbol. *)
Theorem move_labels_any_completed_line w :
  length (self_game w) = 9%nat ->
  (forall (i : Z) (t : Z * Z * Z),
     0 <= i <= 8 -> self_game w !! Z.to_nat i = Some " " ->
     In t Game.wins -> completed_by "O" (self_game w) t ->
     Game.userMove i w =
       (Ret "X", mkWorld (<[Z.to_nat i := "X"]> (self_game w)) (store w))) /\
  (forall (r : nat) (t : Z * Z * Z),
     has_blank (self_game w) ->
     In t Game.wins -> completed_by "X" (self_game w) t ->
     fst (Game.computerMove r w) = Ret "O") /\
  (forall i : Z,
     0 <= i <= 8 -> self_game w !! Z.to_nat i = Some " " ->
     fst (Game.userMove i w) =
       Ret (if has_line (<[Z.to_nat i := "X"]> (self_game w))
            then "X" else "")).
Proof.
  intros Hlen. split; [|split].
  - intros i t Hi Hblank Ht Hline.
    rewrite (userMove_blank w i Hlen ltac:(lia) Hblank).
    assert (has_line (<[Z.to_nat i := "X"]> (self_game w)) = true) as ->;
      [|reflexivity].
    unfold has_line. apply existsb_exists. exists t. split; [exact Ht|].
    apply (completed_by_triple_wins _ t "O"); [now right|].
    apply completed_by_insert; [exact Hline|]. rewrite Hblank. discriminate.
  - intros r t Hblank Ht Hline.
    destruct (computerMove_blank r w Hlen Hblank) as (k & Hk & ->). simpl.
    assert (has_line (<[k := "O"]> (self_game w)) = true) as ->;
      [|reflexivity].
    unfold has_line. apply existsb_exists. exists t. split; [exact Ht|].
    apply (completed_by_triple_wins _ t "X"); [now left|].
    apply completed_by_insert; [exact Hline|]. rewrite Hk. discriminate.
  - intros i Hi Hblank.
    now rewrite (userMove_blank w i Hlen ltac:(lia) Hblank).
Qed.
End ResultLabel.

(** ** The board always has nine cells; restoring *)

Section Snapshots.
Context {Store : Type} {P : Persistence Store}.
Implicit Types (w : World Store) (g : board).

Lemma init_length (arg : option board) : length (Game.__init__ arg) = 9%nat.
Proof.
  destruct arg as [g|]; [|reflexivity]. unfold Game.__init__.
  destruct (Nat.eqb_spec (length g) 9) as [E|_];
    [rewrite E; exact E | rewrite andb_false_r; reflexivity].
Qed.

Lemma init_nine g : length g = 9%nat -> Game.__init__ (Some g) = g.
Proof. intros E. unfold Game.__init__. now rewrite E. Qed.

Lemma init_other_length g :
  length g <> 9%nat -> Game.__init__ (Some g) = Game.blank_board.
Proof.
  intros E. unfold Game.__init__. apply Nat.eqb_neq in E.
  now rewrite E, andb_false_r.
Qed.

(** Claim C5.  The board has nine cells after construction with any
    argument and after [newGame]; [userMove], [computerMove] and
    [restoreGame] keep a nine-cell board nine cells long whatever their
    outcome; and a supplied snapshot of another length is never installed,
    neither by the constructor nor by [restoreGame]: the board is then the
    blank one. *)
Theorem board_length_always_nine w (arg : option board) (i : Z) (r : nat) :
  length (self_game w) = 9%nat ->
  length (Game.__init__ arg) = 9%nat /\
  length (self_game (snd (Game.newGame w))) = 9%nat /\
  length (self_game (snd (Game.userMove i w))) = 9%nat /\
  length (self_game (snd (Game.computerMove r w))) = 9%nat /\
  length (self_game (snd (Game.restoreGame w))) = 9%nat /\
  (forall g, length g <> 9%nat ->
             Game.__init__ (Some g) = Game.blank_board /\
             Game.__init__ (Some g) <> g) /\
  (forall (snap : board) (s' : Store),
     data_restoreGame (store w) = (Ret snap, s') -> length snap <> 9%nat ->
     self_game (snd (Game.restoreGame w)) = Game.blank_board /\
     self_game (snd (Game.restoreGame w)) <> snap).
Proof.
  intros Hlen.
  split; [apply init_length|].
  split; [reflexivity|].
  split; [now rewrite userMove_length|].
  split; [now rewrite computerMove_length|].
  split; [now apply restoreGame_length|].
  split.
  - intros g Hg. rewrite (init_other_length g Hg).
    split; [reflexivity|]. intros <-. now apply Hg.
  - intros snap s' Hload Hsnap.
    rewrite (restoreGame_wrong_length w snap s' Hload Hsnap). simpl.
    split; [reflexivity|]. intros <-. now apply Hsnap.
Qed.

(** Claim C6.  When [oxo_data.restoreGame] fails only with exceptions of
    class [IOError] (no stored data, I/O failure), [restoreGame] raises
    nothing and returns the resulting board: the loaded snapshot when it
    has nine cells, and otherwise, as after a failed load, the blank
    board that [newGame] installs. *)
Theorem restoreGame_falls_back_to_newGame w :
  (forall (e : exn) (s' : Store),
     data_restoreGame (store w) = (Raise e, s') ->
     isinstance_IOError e = true) ->
  (exists g : board,
     Game.restoreGame w =
       (Ret g, mkWorld g (snd (data_restoreGame (store w))))) /\
  (forall (snap : board) (s' : Store),
     data_restoreGame (store w) = (Ret snap, s') -> length snap = 9%nat ->
     Game.restoreGame w = (Ret snap, mkWorld snap s')) /\
  (forall (snap : board) (s' : Store),
     data_restoreGame (store w) = (Ret snap, s') -> length snap <> 9%nat ->
     Game.restoreGame w = (Ret Game.blank_board, mkWorld Game.blank_board s') /\
     Game.restoreGame w = Game.newGame (mkWorld (self_game w) s')) /\
  (forall (e : exn) (s' : Store),
     data_restoreGame (store w) = (Raise e, s') ->
     Game.restoreGame w = (Ret Game.blank_board, mkWorld Game.blank_board s') /\
     Game.restoreGame w = Game.newGame (mkWorld (self_game w) s')).
Proof.
  intros Hio. split; [|split; [|split]].
  - destruct (data_restoreGame (store w)) as [[snap|e] s'] eqn:Hload.
    + destruct (Nat.eq_dec (length snap) 9%nat) as [H9|H9].
      * exists snap. exact (restoreGame_loaded w snap s' Hload H9).
      * exists Game.blank_board.
        exact (restoreGame_wrong_length w snap s' Hload H9).
    + exists Game.blank_board.
      exact (restoreGame_IOError w e s' Hload (Hio e s' eq_refl)).
  - intros snap s' Hload H9. now apply restoreGame_loaded.
  - intros snap s' Hload H9.
    now rewrite (restoreGame_wrong_length w snap s' Hload H9).
  - intros e s' Hload.
    now rewrite (restoreGame_IOError w e s' Hload (Hio e s' Hload)).
Qed.

(** Claim C9.  Only the length of a snapshot is looked at.  The
    constructor keeps any nine-element list as it is, whatever strings its
    cells are, and builds the blank board for [None], for the empty list
    and for a list of any other length; [restoreGame] installs any loaded
    nine-element list as it is. *)
Theorem snapshot_checked_by_length_only w (g : board) :
  (length g = 9%nat -> Game.__init__ (Some g) = g) /\
  (length g <> 9%nat -> Game.__init__ (Some g) = Game.blank_board) /\
  Game.__init__ None = Game.blank_board /\
  Game.__init__ (Some []) = Game.blank_board /\
  (forall s' : Store,
     data_restoreGame (store w) = (Ret g, s') -> length g = 9%nat ->
     Game.restoreGame w = (Ret g, mkWorld g s')).
Proof.
  split; [apply init_nine|].
  split; [apply init_other_length|].
  split; [reflexivity|].
  split; [reflexivity|].
  intros s' Hload H9. now apply restoreGame_loaded.
Qed.
End Snapshots.

(** ** Saving and restoring through [oxo_data] *)

Section RoundTrip.
Import oxo_data.
Implicit Types (w : World Disk) (g : board).

(** Claim C7.  For a board of nine symbols, when [saveGame] returns and
    the file is then read without error, [restoreGame] returns the saved
    board and installs it, whatever board the engine holds at that
    moment. *)
Theorem saveGame_restoreGame_roundtrip w w1 :
  length (self_game w) = 9%nat -> Forall symbol (self_game w) ->
  Game.saveGame w = (Ret tt, w1) ->
  read_error (store w1) = false ->
  Game.restoreGame w1 = (Ret (self_game w), w1) /\
  (forall g,
     Game.restoreGame (mkWorld g (store w1)) =
       (Ret (self_game w), mkWorld (self_game w) (store w1))).
Proof.
  intros Hlen Hsym Hsave Hread.
  unfold Game.saveGame, bind, get_game, Game.call_data_saveGame in Hsave.
  simpl in Hsave. unfold saveGame in Hsave.
  destruct (writable (store w)); [|discriminate].
  injection Hsave as <-. simpl in Hread.
  assert (forall g,
            Game.restoreGame
              (mkWorld g (mkDisk (Some (pyjoin (self_game w))) true
                                 (read_error (store w)))) =
            (Ret (self_game w),
             mkWorld (self_game w)
                     (mkDisk (Some (pyjoin (self_game w))) true
                             (read_error (store w))))) as Hall.
  { intros g. apply restoreGame_loaded; [|exact Hlen].
    simpl. unfold restoreGame. simpl. rewrite Hread.
    now rewrite (pylist_pyjoin _ Hsym). }
  split; [apply Hall | intros g; apply Hall].
Qed.
End RoundTrip.

(** ** Boards of the test suite *)

Lemma Forall_not_blank (g : board) :
  Forall (fun c : cell => c <> " ") g -> ~ has_blank g.
Proof.
  intros Hall (k & Hk). exact (proj1 (Forall_lookup _ _) Hall k " " Hk eq_refl).
Qed.

Example win_top_row_X :
  fst (Game._isWinningMove (world_of "XXXOO    " None)) = Ret true.
Proof. reflexivity. Qed.

Example win_middle_row_O :
  fst (Game._isWinningMove (world_of "X XOOOXX " None)) = Ret true.
Proof. reflexivity. Qed.

Example win_bottom_row_X :
  fst (Game._isWinningMove (world_of "OO  O XXX" None)) = Ret true.
Proof. reflexivity. Qed.

Example win_left_column_O :
  fst (Game._isWinningMove (world_of "OX OX O  " None)) = Ret true.
Proof. reflexivity. Qed.

Example win_middle_column_X :
  fst (Game._isWinningMove (world_of " XO XO X " None)) = Ret true.
Proof. reflexivity. Qed.

Example win_right_column_O :
  fst (Game._isWinningMove (world_of "X OX OX O" None)) = Ret true.
Proof. reflexivity. Qed.

Example win_main_diagonal_X :
  fst (Game._isWinningMove (world_of "XO  XO  X" None)) = Ret true.
Proof. reflexivity. Qed.

Example win_anti_diagonal_O :
  fst (Game._isWinningMove (world_of "X OXO OX " None)) = Ret true.
Proof. reflexivity. Qed.

Example no_win_empty_board :
  fst (Game._isWinningMove (world_of "         " None)) = Ret false.
Proof. reflexivity. Qed.

Example no_win_partial_game :
  fst (Game._isWinningMove (world_of "XO XO    " None)) = Ret false.
Proof. reflexivity. Qed.

Example no_win_full_board_draw :
  fst (Game._isWinningMove (world_of "XXOOOXXXO" None)) = Ret false.
Proof. reflexivity. Qed.

Example userMove_winning_horizontal :
  Game.userMove 2 (world_of "XX O O   " None) =
    (Ret "X", world_of "XXXO O   " None).
Proof. reflexivity. Qed.

(** Cells that are not symbols: the loop compares the concatenation only. *)
Example win_by_concatenation :
  fst (Game._isWinningMove
         (mkWorld ["XX"; "X"; ""; " "; " "; " "; " "; " "; " "]
                  (oxo_data.mkDisk None true false))) = Ret true.
Proof. reflexivity. Qed.

(** A full board too short for win detection: [_isWinningMove] raises,
    [computerMove] still answers ["D"]. *)
Example computerMove_draw_without_detection :
  fst (Game._isWinningMove (world_of "X" None)) =
    Raise (IndexError "list index out of range") /\
  Game.computerMove 0 (world_of "X" None) = (Ret "D", world_of "X" None).
Proof. split; reflexivity. Qed.

(** Every blank cell can be the one [computerMove] fills. *)
Example computerMove_reaches_every_blank :
  map (fun r => self_game (snd (Game.computerMove r (world_of "XO XO XO " None))))
      [0%nat; 1%nat; 2%nat] =
  [pylist "XOOXO XO "; pylist "XO XOOXO "; pylist "XO XO XOO"].
Proof. reflexivity. Qed.

(** ** The theorems at concrete boards *)

(** [userMove(0)] on the board "XO XO XO ", whose cell 0 holds ["X"]. *)
Lemma userMove_invalid_iff_occupied_witness :
  (Game.userMove 0 (world_of "XO XO XO " None) =
     (Raise (ValueError "Invalid cell"), world_of "XO XO XO " None)
   <-> self_game (world_of "XO XO XO " None) !! Z.to_nat 0 <> Some " ") /\
  (raised (fst (Game.userMove 0 (world_of "XO XO XO " None))) = true
   <-> self_game (world_of "XO XO XO " None) !! Z.to_nat 0 <> Some " ").
Proof.
  apply (userMove_invalid_iff_occupied (world_of "XO XO XO " None) 0);
    [reflexivity | lia].
Defined.

(** [newGame()] then [userMove(4)], starting from a board in play. *)
Lemma newGame_then_userMove_witness :
  exists w1 w2 : World oxo_data.Disk,
    Game.newGame (world_of "XO XO XO " None) = (Ret Game.blank_board, w1) /\
    Game.userMove 4 w1 = (Ret "", w2) /\
    self_game w2 !! Z.to_nat 4 = Some "X" /\
    (forall j : nat, (j < 9)%nat -> j <> Z.to_nat 4 ->
                     self_game w2 !! j = Some " ") /\
    length (self_game w2) = 9%nat /\
    store w2 = store (world_of "XO XO XO " None).
Proof. apply (newGame_then_userMove (world_of "XO XO XO " None) 4). lia. Defined.

(** [computerMove()] on the board "XX O O   ", draw 0. *)
Lemma computerMove_draw_or_place_witness :
  has_blank (self_game (world_of "XX O O   " None)) /\
  exists (k : nat) (res : string) (w' : World oxo_data.Disk),
    Game.computerMove 0 (world_of "XX O O   " None) = (Ret res, w') /\
    self_game (world_of "XX O O   " None) !! k = Some " " /\
    self_game w' !! k = Some "O" /\
    (forall j : nat, j <> k ->
                     self_game w' !! j = self_game (world_of "XX O O   " None) !! j) /\
    length (self_game w') = 9%nat /\
    store w' = store (world_of "XX O O   " None) /\
    (res = "O" \/ res = "") /\
    (res = "O" <-> Game._isWinningMove w' = (Ret true, w')).
Proof.
  assert (has_blank (self_game (world_of "XX O O   " None))) as Hblank
    by (exists 2%nat; reflexivity).
  split; [exact Hblank|].
  apply (proj2 (computerMove_draw_or_place 0 (world_of "XX O O   " None) eq_refl)).
  exact Hblank.
Defined.

(** [computerMove()] on the full board "XXXOOOXOX", which holds two
    completed rows. *)
Lemma computerMove_full_board_draw_witness :
  has_line (self_game (world_of "XXXOOOXOX" None)) = true /\
  Game.computerMove 0 (world_of "XXXOOOXOX" None) =
    (Ret "D", world_of "XXXOOOXOX" None) /\
  fst (Game.computerMove 0 (world_of "XXXOOOXOX" None)) <> Ret "O" /\
  fst (Game.computerMove 0 (world_of "XXXOOOXOX" None)) <> Ret "X".
Proof.
  split; [reflexivity|].
  apply (computerMove_full_board_draw 0 (world_of "XXXOOOXOX" None)).
  apply Forall_not_blank. repeat constructor; discriminate.
Defined.

(** [_isWinningMove()] on the full draw board "XXOOOXXXO". *)
Lemma isWinningMove_iff_completed_triple_witness :
  Game.wins = [ (0, 1, 2); (3, 4, 5); (6, 7, 8);
                (0, 3, 6); (1, 4, 7); (2, 5, 8);
                (0, 4, 8); (2, 4, 6) ] /\
  exists v : bool,
    Game._isWinningMove (world_of "XXOOOXXXO" None) =
      (Ret v, world_of "XXOOOXXXO" None) /\
    (v = true <->
     exists t, In t Game.wins /\
               completed (self_game (world_of "XXOOOXXXO" None)) t) /\
    (self_game (world_of "XXOOOXXXO" None) = Game.blank_board -> v = false) /\
    ((forall t, In t Game.wins ->
                ~ completed (self_game (world_of "XXOOOXXXO" None)) t) ->
     v = false) /\
    (~ has_blank (self_game (world_of "XXOOOXXXO" None)) ->
     (forall t, In t Game.wins ->
                ~ completed (self_game (world_of "XXOOOXXXO" None)) t) ->
     v = false).
Proof.
  apply (isWinningMove_iff_completed_triple (world_of "XXOOOXXXO" None));
    [reflexivity | symbols].
Defined.

(** The claim of C2 fails on the board "OOOXX    ": row 0 is completed by
    ["O"], cell 8 is blank, and after [userMove(8)] no triple is completed
    by ["X"]; yet the call returns ["X"], not the empty string.  Likewise
    [computerMove] on "XXXO    O" fills cell 4, completes no line of ["O"],
    and returns ["O"]. *)
Lemma opposite_line_not_reported_counterexample :
  (completed_by "O" (self_game (world_of "OOOXX    " None)) (0, 1, 2) /\
   self_game (world_of "OOOXX    " None) !! 8%nat = Some " " /\
   (forall t, In t Game.wins ->
      ~ completed_by "X"
          (self_game (snd (Game.userMove 8 (world_of "OOOXX    " None)))) t) /\
   Game.userMove 8 (world_of "OOOXX    " None) =
     (Ret "X", world_of "OOOXX   X" None) /\
   fst (Game.userMove 8 (world_of "OOOXX    " None)) <> Ret "") /\
  (completed_by "X" (self_game (world_of "XXXO    O" None)) (0, 1, 2) /\
   (forall t, In t Game.wins ->
      ~ completed_by "O"
          (self_game (snd (Game.computerMove 0 (world_of "XXXO    O" None)))) t) /\
   Game.computerMove 0 (world_of "XXXO    O" None) =
     (Ret "O", world_of "XXXOO   O" None) /\
   fst (Game.computerMove 0 (world_of "XXXO    O" None)) <> Ret "").
Proof.
  split.
  - split; [repeat split|]. split; [reflexivity|].
    split; [|split; [reflexivity | discriminate]].
    intros t Ht. unfold Game.wins in Ht. simpl in Ht.
    repeat (destruct Ht as [<- | Ht]; [intros (H1 & H2 & H3); discriminate|]).
    contradiction.
  - split; [repeat split|].
    split; [|split; [reflexivity | discriminate]].
    intros t Ht. unfold Game.wins in Ht. simpl in Ht.
    repeat (destruct Ht as [<- | Ht]; [intros (H1 & H2 & H3); discriminate|]).
    contradiction.
Qed.

(** The amended statement on the same two boards. *)
Lemma move_labels_any_completed_line_witness :
  Game.userMove 8 (world_of "OOOXX    " None) =
    (Ret "X",
     mkWorld (<[Z.to_nat 8 := "X"]> (self_game (world_of "OOOXX    " None)))
             (store (world_of "OOOXX    " None))) /\
  fst (Game.computerMove 0 (world_of "XXXO    O" None)) = Ret "O" /\
  fst (Game.userMove 8 (world_of "OOOXX    " None)) =
    Ret (if has_line (<[Z.to_nat 8 := "X"]> (self_game (world_of "OOOXX    " None)))
         then "X" else "").
Proof.
  pose proof (move_labels_any_completed_line (world_of "OOOXX    " None) eq_refl)
    as (Huser & _ & Hlabel).
  pose proof (move_labels_any_completed_line (world_of "XXXO    O" None) eq_refl)
    as (_ & Hcomp & _).
  split; [|split].
  - apply (Huser 8 (0, 1, 2)); [lia | reflexivity | now left | repeat split].
  - apply (Hcomp 0%nat (0, 1, 2)); [exists 4%nat; reflexivity | now left | repeat split].
  - apply (Hlabel 8); [lia | reflexivity].
Defined.

(** The engine holds "XO XO XO " while the file holds the three characters
    "XOX"; the constructor is given the three-element list. *)
Lemma board_length_always_nine_witness :
  length (Game.__init__ (Some (pylist "XOX"))) = 9%nat /\
  length (self_game (snd (Game.newGame (world_of "XO XO XO " (Some "XOX"))))) = 9%nat /\
  length (self_game (snd (Game.userMove 2 (world_of "XO XO XO " (Some "XOX"))))) = 9%nat /\
  length (self_game (snd (Game.computerMove 3 (world_of "XO XO XO " (Some "XOX"))))) = 9%nat /\
  length (self_game (snd (Game.restoreGame (world_of "XO XO XO " (Some "XOX"))))) = 9%nat /\
  (Game.__init__ (Some (pylist "XOX")) = Game.blank_board /\
   Game.__init__ (Some (pylist "XOX")) <> pylist "XOX") /\
  (self_game (snd (Game.restoreGame (world_of "XO XO XO " (Some "XOX")))) =
     Game.blank_board /\
   self_game (snd (Game.restoreGame (world_of "XO XO XO " (Some "XOX")))) <>
     pylist "XOX").
Proof.
  destruct (board_length_always_nine (world_of "XO XO XO " (Some "XOX"))
              (Some (pylist "XOX")) 2 3 eq_refl)
    as (H1 & H2 & H3 & H4 & H5 & H6 & H7).
  repeat (split; [assumption|]).
  split.
  - apply (H6 (pylist "XOX")). discriminate.
  - apply (H7 (pylist "XOX") (store (world_of "XO XO XO " (Some "XOX"))));
      [reflexivity | discriminate].
Defined.

(** [restoreGame()] with no file on the disk: the load raises
    [FileNotFoundError]. *)
Lemma restoreGame_falls_back_to_newGame_witness :
  Game.restoreGame (world_of "XO XO XO " None) =
    (Ret Game.blank_board, world_of "         " None) /\
  Game.restoreGame (world_of "XO XO XO " None) =
    Game.newGame (world_of "XO XO XO " None).
Proof.
  assert (forall (e : exn) (s' : oxo_data.Disk),
            data_restoreGame (store (world_of "XO XO XO " None)) = (Raise e, s') ->
            isinstance_IOError e = true) as Hio
    by (intros e s' [= <- <-]; reflexivity).
  destruct (restoreGame_falls_back_to_newGame (world_of "XO XO XO " None) Hio)
    as (_ & _ & _ & Hfail).
  apply (Hfail FileNotFoundError (store (world_of "XO XO XO " None))).
  reflexivity.
Defined.

(** Saving the board "XO XO XO " to an empty disk, then restoring. *)
Lemma saveGame_restoreGame_roundtrip_witness :
  Game.saveGame (world_of "XO XO XO " None) =
    (Ret tt, world_of "XO XO XO " (Some "XO XO XO ")) /\
  Game.restoreGame (world_of "XO XO XO " (Some "XO XO XO ")) =
    (Ret (pylist "XO XO XO "), world_of "XO XO XO " (Some "XO XO XO ")) /\
  (forall g : board,
     Game.restoreGame (mkWorld g (store (world_of "XO XO XO " (Some "XO XO XO ")))) =
       (Ret (pylist "XO XO XO "),
        mkWorld (pylist "XO XO XO ")
                (store (world_of "XO XO XO " (Some "XO XO XO "))))).
Proof.
  split; [reflexivity|].
  apply (saveGame_restoreGame_roundtrip (world_of "XO XO XO " None)
           (world_of "XO XO XO " (Some "XO XO XO ")));
    [reflexivity | symbols | reflexivity | reflexivity].
Defined.

(** A nine-element list of strings that are not symbols, given to the
    constructor and loaded from the file "ZZ?ab12__". *)
Lemma snapshot_checked_by_length_only_witness :
  Game.__init__ (Some (pylist "ZZ?ab12__")) = pylist "ZZ?ab12__" /\
  Game.restoreGame (world_of "         " (Some "ZZ?ab12__")) =
    (Ret (pylist "ZZ?ab12__"), world_of "ZZ?ab12__" (Some "ZZ?ab12__")).
Proof.
  destruct (snapshot_checked_by_length_only
              (world_of "         " (Some "ZZ?ab12__")) (pylist "ZZ?ab12__"))
    as (Hinit & _ & _ & _ & Hrestore).
  split.
  - apply Hinit. reflexivity.
  - apply (Hrestore (store (world_of "         " (Some "ZZ?ab12__"))));
      reflexivity.
Defined.

(** ** Further properties of the moves *)

Section Indexing.
Context {Store : Type}.
Implicit Types (w : World Store) (g : board).

Lemma norm_index_negative (n : nat) (i : Z) :
  - Z.of_nat n <= i < 0 -> norm_index n i = Some (Z.to_nat (Z.of_nat n + i)).
Proof.
  intros [H0 H1]. unfold norm_index.
  destruct (Z.leb_spec 0 i); [lia|]. simpl.
  destruct (Z.leb_spec (- Z.of_nat n) i); [|lia].
  destruct (Z.ltb_spec i 0); [|lia]. reflexivity.
Qed.


Lemma norm_index_lt (n : nat) (i : Z) (k : nat) :
  norm_index n i = Some k -> (k < n)%nat.
Proof.
  unfold norm_index.
  destruct (Z.leb_spec 0 i), (Z.ltb_spec i (Z.of_nat n)); simpl;
    try (intros [= <-]; lia);
    destruct (Z.leb_spec (- Z.of_nat n) i), (Z.ltb_spec i 0); simpl;
    try discriminate; intros [= <-]; lia.
Qed.

(** [userMove] looks at its argument through the index normalisation
    only. *)
Lemma userMove_same_cell w (i j : Z) :
  norm_index (length (self_game w)) i = norm_index (length (self_game w)) j ->
  Game.userMove i w = Game.userMove j w.
Proof.
  intros H. unfold Game.userMove, bind, getitem. rewrite H.
  destruct (norm_index (length (self_game w)) j) as [k|] eqn:Hj; [|reflexivity].
  destruct (self_game w !! k) as [c|]; [|reflexivity].
  destruct (negb (c =? " ")%string); [reflexivity|].
  unfold setitem. now rewrite H, Hj.
Qed.

(** The three ways [userMove] can go on the cell [k] its argument
    denotes. *)
Lemma userMove_blank_at w (i : Z) (k : nat) :
  norm_index (length (self_game w)) i = Some k ->
  self_game w !! k = Some " " ->
  Game.userMove i w =
    (let* v := Game._isWinningMove in if v then ret "X" else ret "")
      (mkWorld (<[k := "X"]> (self_game w)) (store w)).
Proof.
  intros Hi Hk. unfold Game.userMove, bind at 1 2, getitem. rewrite Hi, Hk.
  simpl. unfold setitem. now rewrite Hi.
Qed.

Lemma userMove_occupied_at w (i : Z) (k : nat) (c : cell) :
  norm_index (length (self_game w)) i = Some k ->
  self_game w !! k = Some c -> c <> " " ->
  Game.userMove i w = (Raise (ValueError "Invalid cell"), w).
Proof.
  intros Hi Hk Hc. unfold Game.userMove, bind, getitem. rewrite Hi, Hk.
  apply String.eqb_neq in Hc. now rewrite Hc.
Qed.

Lemma userMove_outside w (i : Z) :
  norm_index (length (self_game w)) i = None ->
  Game.userMove i w = (Raise (IndexError "list index out of range"), w).
Proof. intros Hi. unfold Game.userMove, bind, getitem. now rewrite Hi. Qed.

(** After [userMove] the state is the old one, or the old one with ["X"]
    written into a cell that was blank. *)
Lemma userMove_state w (i : Z) :
  snd (Game.userMove i w) = w \/
  exists k : nat,
    norm_index (length (self_game w)) i = Some k /\
    self_game w !! k = Some " " /\
    snd (Game.userMove i w) = mkWorld (<[k := "X"]> (self_game w)) (store w).
Proof.
  destruct (norm_index (length (self_game w)) i) as [k|] eqn:Hi;
    [|left; now rewrite userMove_outside].
  destruct (lookup_lt_is_Some_2 (self_game w) k (norm_index_lt _ _ _ Hi))
    as [c Hk].
  destruct (String.eqb_spec c " ") as [-> | Hc];
    [|left; now rewrite (userMove_occupied_at w i k c)].
  right. exists k. split; [reflexivity|]. split; [exact Hk|].
  rewrite (userMove_blank_at w i k Hi Hk). unfold bind, Game._isWinningMove.
  pose proof (scan_state Game.wins
                (mkWorld (<[k := "X"]> (self_game w)) (store w))) as Hs.
  destruct (Game.scan Game.wins _) as [[[|]|e] w2]; simpl in Hs; now subst w2.
Qed.

(** After [computerMove] the state is the old one, or the old one with
    ["O"] written into a cell that was blank. *)
Lemma computerMove_state (r : nat) w :
  snd (Game.computerMove r w) = w \/
  exists k : nat,
    self_game w !! k = Some " " /\
    snd (Game.computerMove r w) = mkWorld (<[k := "O"]> (self_game w)) (store w).
Proof.
  destruct (Game.options (self_game w)) as [|z opts] eqn:Hopts.
  - left. apply options_nil in Hopts. now rewrite computerMove_full.
  - right.
    assert (has_blank (self_game w)) as Hblank.
    { assert (In z (Game.options (self_game w))) as Hin
        by (rewrite Hopts; now left).
      apply In_options in Hin as (k & _ & Hk). now exists k. }
    destruct (generateMove_blank r w Hblank) as (k & Hk & Hgen).
    exists k. split; [exact Hk|].
    pose proof (lookup_lt_Some _ _ _ Hk) as Hlt.
    unfold Game.computerMove. rewrite (bind_ret_run _ _ _ _ _ Hgen).
    destruct (Z.eqb_spec (Z.of_nat k) (-1)) as [E|_]; [lia|].
    erewrite bind_ret_run by (apply setitem_in_range; lia).
    rewrite Nat2Z.id. unfold bind, Game._isWinningMove.
    pose proof (scan_state Game.wins
                  (mkWorld (<[k := "O"]> (self_game w)) (store w))) as Hs.
    destruct (Game.scan Game.wins _) as [[[|]|e] w2]; simpl in Hs; now subst w2.
Qed.
End Indexing.

Section MoreMoves.
Context {Store : Type}.
Implicit Types (w : World Store) (g : board).

Lemma count_insert g (k : nat) (a c x : cell) :
  g !! k = Some a ->
  (count x (<[k := c]> g) + (if string_dec a x then 1 else 0) =
   count x g + (if string_dec c x then 1 else 0))%nat.
Proof.
  unfold count. revert k. induction g as [|y g IH]; intros k Hk;
    [destruct k; discriminate|].
  destruct k as [|k]; simpl in *.
  - injection Hk as ->.
    destruct (string_dec a x), (string_dec c x); lia.
  - specialize (IH k Hk). destruct (string_dec y x); lia.
Qed.

Lemma count_blank_zero g : count " " g = 0%nat <-> ~ has_blank g.
Proof.
  unfold count. rewrite <- (count_occ_not_In string_dec). split.
  - intros Hin (k & Hk). apply Hin. apply list_elem_of_In.
    apply list_elem_of_lookup. now exists k.
  - intros Hno Hin. apply Hno. apply list_elem_of_In in Hin.
    apply list_elem_of_lookup in Hin as [k Hk]. now exists k.
Qed.

(** X1.  [_generateMove] never raises and never changes the state, on a
    board of any length: it returns [-1] when no cell is blank and the
    index of a blank cell otherwise. *)
Theorem generateMove_blank_index_or_sentinel (r : nat) w :
  exists z : Z,
    Game._generateMove r w = (Ret z, w) /\
    (z = -1 <-> ~ has_blank (self_game w)) /\
    (z <> -1 ->
     0 <= z < Z.of_nat (length (self_game w)) /\
     self_game w !! Z.to_nat z = Some " ").
Proof.
  destruct (Game.options (self_game w)) as [|z0 opts] eqn:Hopts.
  - apply options_nil in Hopts. exists (-1).
    split; [now apply generateMove_full|]. split; [tauto | congruence].
  - assert (has_blank (self_game w)) as Hblank.
    { assert (In z0 (Game.options (self_game w))) as Hin
        by (rewrite Hopts; now left).
      apply In_options in Hin as (k & _ & Hk). now exists k. }
    destruct (generateMove_blank r w Hblank) as (k & Hk & Hgen).
    pose proof (lookup_lt_Some _ _ _ Hk) as Hlt.
    exists (Z.of_nat k). split; [exact Hgen|]. split.
    + split; [lia | tauto].
    + intros _. rewrite Nat2Z.id. split; [lia | exact Hk].
Qed.

(** X2.  A negative argument counts cells from the end, as Python list
    indexing does: for [-len <= i < 0], [userMove(i)] is [userMove(len + i)],
    in result and in effect. *)
Theorem userMove_negative_index w (i : Z) :
  - Z.of_nat (length (self_game w)) <= i < 0 ->
  Game.userMove i w = Game.userMove (Z.of_nat (length (self_game w)) + i) w.
Proof.
  intros Hi. apply userMove_same_cell.
  rewrite norm_index_negative by exact Hi.
  now rewrite norm_index_in_range by lia.
Qed.


(** X4.  On a 9-cell board, [userMove] on a blank cell [i] of 0..8 returns
    normally: cell [i] then holds ["X"], every other cell and the store are
    as before, and the result is ["X"] when win detection succeeds on the
    new board and the empty string otherwise. *)
Theorem userMove_places_X w (i : Z) :
  length (self_game w) = 9%nat -> 0 <= i <= 8 ->
  self_game w !! Z.to_nat i = Some " " ->
  exists (res : string) (w' : World Store),
    Game.userMove i w = (Ret res, w') /\
    self_game w' !! Z.to_nat i = Some "X" /\
    (forall j : nat, j <> Z.to_nat i -> self_game w' !! j = self_game w !! j) /\
    length (self_game w') = 9%nat /\
    store w' = store w /\
    (res = "X" \/ res = "") /\
    (res = "X" <-> Game._isWinningMove w' = (Ret true, w')).
Proof.
  intros Hlen Hi Hblank.
  eexists _, _. split; [apply (userMove_blank w i Hlen ltac:(lia) Hblank)|].
  simpl.
  split; [apply list_lookup_insert_eq; lia|].
  split; [intros j Hj; now apply list_lookup_insert_ne|].
  split; [now rewrite length_insert|].
  split; [reflexivity|].
  rewrite isWinningMove_run by (simpl; now rewrite length_insert). simpl.
  destruct (has_line _); split; try (now left); try (now right);
    split; first [reflexivity | discriminate].
Qed.

(** X5.  A move that succeeded cannot be repeated: when [userMove(i)]
    returns, a second [userMove(i)] raises [ValueError("Invalid cell")] and
    changes nothing. *)
Theorem userMove_cannot_repeat w (i : Z) (res : string) (w' : World Store) :
  Game.userMove i w = (Ret res, w') ->
  Game.userMove i w' = (Raise (ValueError "Invalid cell"), w').
Proof.
  intros Hrun.
  destruct (norm_index (length (self_game w)) i) as [k|] eqn:Hi;
    [|rewrite userMove_outside in Hrun by exact Hi; discriminate].
  pose proof (norm_index_lt _ _ _ Hi) as Hlt.
  destruct (lookup_lt_is_Some_2 (self_game w) k Hlt) as [c Hk].
  destruct (String.eqb_spec c " ") as [-> | Hc];
    [|rewrite (userMove_occupied_at w i k c Hi Hk Hc) in Hrun; discriminate].
  destruct (userMove_state w i) as [Hs | (k' & Hi' & _ & Hs)].
  - rewrite (userMove_blank_at w i k Hi Hk) in Hrun, Hs.
    rewrite Hrun in Hs. simpl in Hs. subst w'.
    unfold bind, Game._isWinningMove in Hrun.
    pose proof (scan_state Game.wins
                  (mkWorld (<[k := "X"]> (self_game w)) (store w))) as Hsc.
    destruct (Game.scan Game.wins _) as [[[|]|e] w2]; simpl in Hsc; subst w2;
      try discriminate;
      injection Hrun as _ Hw; apply (f_equal self_game) in Hw; simpl in Hw;
      apply (f_equal (fun l => l !! k)) in Hw;
      rewrite list_lookup_insert_eq in Hw by exact Hlt; congruence.
  - rewrite Hrun in Hs. simpl in Hs. subst w'.
    assert (k' = k) as -> by congruence.
    apply (userMove_occupied_at _ i k "X");
      [simpl; now rewrite length_insert
      | simpl; now apply list_lookup_insert_eq
      | discriminate].
Qed.

(** X6.  Neither move overwrites an occupied cell: on a board of any
    length, for any argument, draw and outcome, a cell that is not blank
    holds the same string after [userMove] and after [computerMove]. *)
Theorem moves_never_overwrite w (i : Z) (r : nat) (j : nat) (c : cell) :
  self_game w !! j = Some c -> c <> " " ->
  self_game (snd (Game.userMove i w)) !! j = Some c /\
  self_game (snd (Game.computerMove r w)) !! j = Some c.
Proof.
  intros Hj Hc. split.
  - destruct (userMove_state w i) as [-> | (k & _ & Hk & ->)]; [exact Hj|].
    simpl. rewrite list_lookup_insert_ne; [exact Hj | congruence].
  - destruct (computerMove_state r w) as [-> | (k & Hk & ->)]; [exact Hj|].
    simpl. rewrite list_lookup_insert_ne; [exact Hj | congruence].
Qed.
End MoreMoves.

Section Accounting.
Context {Store : Type}.
Implicit Types (w : World Store) (g : board).

Lemma has_blank_dec g : has_blank g \/ ~ has_blank g.
Proof.
  destruct (Game.options g) as [|z opts] eqn:Hopts.
  - right. now apply options_nil.
  - left. assert (In z (Game.options g)) as Hin by (rewrite Hopts; now left).
    apply In_options in Hin as (k & _ & Hk). now exists k.
Qed.

Lemma count_after_move g (k : nat) (c : cell) :
  g !! k = Some " " -> c <> " " ->
  count c (<[k := c]> g) = S (count c g) /\
  S (count " " (<[k := c]> g)) = count " " g /\
  (forall x : cell, x <> c -> x <> " " -> count x (<[k := c]> g) = count x g).
Proof.
  intros Hk Hc. split; [|split].
  - pose proof (count_insert g k " " c c Hk) as H.
    destruct (string_dec " " c), (string_dec c c); try congruence; lia.
  - pose proof (count_insert g k " " c " " Hk) as H.
    destruct (string_dec " " " "), (string_dec c " "); try congruence; lia.
  - intros x Hx Hx'. pose proof (count_insert g k " " c x Hk) as H.
    destruct (string_dec " " x), (string_dec c x); try congruence; lia.
Qed.

(** X7.  Piece accounting on a 9-cell board.  [userMove], for any integer
    argument, either raises and leaves the state as it was, or returns with
    one more ["X"], one blank cell fewer and as many ["O"] as before;
    [computerMove] either returns ["D"] and leaves the state as it was, or
    returns another result with one more ["O"], one blank cell fewer and as
    many ["X"] as before. *)
Theorem moves_count_pieces w (i : Z) (r : nat) :
  length (self_game w) = 9%nat ->
  ((exists e : exn, Game.userMove i w = (Raise e, w)) \/
   (exists (res : string) (w' : World Store),
      Game.userMove i w = (Ret res, w') /\
      count "X" (self_game w') = S (count "X" (self_game w)) /\
      S (count " " (self_game w')) = count " " (self_game w) /\
      count "O" (self_game w') = count "O" (self_game w))) /\
  (Game.computerMove r w = (Ret "D", w) \/
   (exists (res : string) (w' : World Store),
      Game.computerMove r w = (Ret res, w') /\ res <> "D" /\
      count "O" (self_game w') = S (count "O" (self_game w)) /\
      S (count " " (self_game w')) = count " " (self_game w) /\
      count "X" (self_game w') = count "X" (self_game w))).
Proof.
  intros Hlen. split.
  - destruct (norm_index (length (self_game w)) i) as [k|] eqn:Hi;
      [|left; eexists; now apply userMove_outside].
    destruct (lookup_lt_is_Some_2 (self_game w) k (norm_index_lt _ _ _ Hi))
      as [c Hk].
    destruct (String.eqb_spec c " ") as [-> | Hc];
      [|left; eexists; now apply (userMove_occupied_at w i k c)].
    right. rewrite (userMove_blank_at w i k Hi Hk).
    erewrite bind_ret_run
      by (apply isWinningMove_run; simpl; now rewrite length_insert).
    destruct (count_after_move (self_game w) k "X" Hk ltac:(discriminate))
      as (HX & Hb & Hother).
    exists (if has_line (<[k := "X"]> (self_game w)) then "X" else "").
    exists (mkWorld (<[k := "X"]> (self_game w)) (store w)).
    split; [now destruct (has_line _)|].
    simpl. repeat split; [exact HX | exact Hb |].
    apply Hother; discriminate.
  - destruct (has_blank_dec (self_game w)) as [Hblank | Hfull];
      [|left; now apply computerMove_full].
    right. destruct (computerMove_blank r w Hlen Hblank) as (k & Hk & ->).
    destruct (count_after_move (self_game w) k "O" Hk ltac:(discriminate))
      as (HO & Hb & Hother).
    eexists _, _. split; [reflexivity|]. simpl.
    split; [now destruct (has_line _)|].
    repeat split; [exact HO | exact Hb |].
    apply Hother; discriminate.
Qed.
End Accounting.

Section Attribution.
Context {Store : Type}.
Implicit Types (w : World Store) (g : board).

Lemma through_dec (k : nat) (t : Z * Z * Z) : through k t \/ ~ through k t.
Proof.
  destruct t as [[a b] c]. unfold through.
  destruct (Nat.eq_dec (Z.to_nat a) k) as [Ea|Ea];
    destruct (Nat.eq_dec (Z.to_nat b) k) as [Eb|Eb];
    destruct (Nat.eq_dec (Z.to_nat c) k) as [Ec|Ec];
    try (left; tauto).
  right. intros [H | [H | H]]; contradiction.
Qed.

Lemma completed_by_off_triple g (t : Z * Z * Z) (k : nat) (c s : cell) :
  ~ through k t -> completed_by s (<[k := c]> g) t -> completed_by s g t.
Proof.
  destruct t as [[a b] c']. unfold through, completed_by.
  intros Hoff (Ha & Hb & Hc).
  rewrite list_lookup_insert_ne in Ha by (intros E; apply Hoff; auto).
  rewrite list_lookup_insert_ne in Hb by (intros E; apply Hoff; auto).
  rewrite list_lookup_insert_ne in Hc by (intros E; apply Hoff; auto).
  tauto.
Qed.

Lemma completed_by_on_triple g (t : Z * Z * Z) (k : nat) (c s : cell) :
  (k < length g)%nat -> through k t -> completed_by s (<[k := c]> g) t -> s = c.
Proof.
  destruct t as [[a b] c']. unfold through, completed_by.
  intros Hlt [<- | [<- | <-]] (Ha & Hb & Hc);
    [ rewrite list_lookup_insert_eq in Ha by exact Hlt
    | rewrite list_lookup_insert_eq in Hb by exact Hlt
    | rewrite list_lookup_insert_eq in Hc by exact Hlt ]; congruence.
Qed.

(** On a board of symbols without a completed triple, after a symbol is
    written into a blank cell win detection succeeds exactly when a triple
    through that cell is completed by that symbol. *)
Lemma line_after_move g (k : nat) (c : cell) :
  length g = 9%nat -> Forall symbol g -> has_line g = false ->
  g !! k = Some " " -> c = "X" \/ c = "O" ->
  has_line (<[k := c]> g) = true <->
  exists t, In t Game.wins /\ through k t /\ completed_by c (<[k := c]> g) t.
Proof.
  intros Hlen Hsym Hnone Hk Hc.
  pose proof (lookup_lt_Some _ _ _ Hk) as Hlt.
  assert (Forall symbol (<[k := c]> g)) as Hsym'.
  { apply Forall_insert; [exact Hsym|]. unfold symbol. tauto. }
  assert (length (<[k := c]> g) = 9%nat) as Hlen' by now rewrite length_insert.
  split.
  - intros Hline.
    apply (has_line_completed _ Hlen' Hsym') in Hline as (t & Ht & s & Hs & Hby).
    exists t. split; [exact Ht|].
    destruct (through_dec k t) as [Hon | Hoff].
    + split; [exact Hon|].
      pose proof (completed_by_on_triple g t k c s Hlt Hon Hby) as E.
      now subst s.
    + exfalso. apply completed_by_off_triple in Hby; [|exact Hoff].
      assert (has_line g = true) as Hline; [|congruence].
      apply (has_line_completed g Hlen Hsym). exists t.
      split; [exact Ht|]. now exists s.
  - intros (t & Ht & _ & Hby). unfold has_line. apply existsb_exists.
    exists t. split; [exact Ht|].
    now apply (completed_by_triple_wins _ t c).
Qed.

(** X8.  Under the move protocol the label is earned by the move: on a
    9-cell board of symbols on which win detection fails, [userMove] on a
    blank cell returns ["X"] exactly when a triple through that cell is
    completed by ["X"] on the new board, and the empty string otherwise. *)
Theorem userMove_wins_through_cell w (i : Z) :
  length (self_game w) = 9%nat -> Forall symbol (self_game w) ->
  has_line (self_game w) = false ->
  0 <= i <= 8 -> self_game w !! Z.to_nat i = Some " " ->
  (fst (Game.userMove i w) = Ret "X" <->
   exists t, In t Game.wins /\ through (Z.to_nat i) t /\
             completed_by "X" (self_game (snd (Game.userMove i w))) t) /\
  (fst (Game.userMove i w) <> Ret "X" -> fst (Game.userMove i w) = Ret "").
Proof.
  intros Hlen Hsym Hnone Hi Hk.
  rewrite (userMove_blank w i Hlen ltac:(lia) Hk). simpl.
  rewrite <- (line_after_move (self_game w) (Z.to_nat i) "X" Hlen Hsym Hnone Hk)
    by now left.
  destruct (has_line (<[Z.to_nat i := "X"]> (self_game w)));
    split; try tauto; split; congruence.
Qed.

(** X9.  The same for the computer: on a 9-cell board of symbols with a
    blank cell on which win detection fails, [computerMove] fills a blank
    cell [k] and returns ["O"] exactly when a triple through [k] is
    completed by ["O"] on the new board, and the empty string otherwise. *)
Theorem computerMove_wins_through_cell (r : nat) w :
  length (self_game w) = 9%nat -> Forall symbol (self_game w) ->
  has_line (self_game w) = false -> has_blank (self_game w) ->
  exists k : nat,
    self_game w !! k = Some " " /\
    self_game (snd (Game.computerMove r w)) = <[k := "O"]> (self_game w) /\
    (fst (Game.computerMove r w) = Ret "O" <->
     exists t, In t Game.wins /\ through k t /\
               completed_by "O" (self_game (snd (Game.computerMove r w))) t) /\
    (fst (Game.computerMove r w) <> Ret "O" ->
     fst (Game.computerMove r w) = Ret "").
Proof.
  intros Hlen Hsym Hnone Hblank.
  destruct (computerMove_blank r w Hlen Hblank) as (k & Hk & ->).
  exists k. split; [exact Hk|]. simpl. split; [reflexivity|].
  rewrite <- (line_after_move (self_game w) k "O" Hlen Hsym Hnone Hk)
    by now right.
  destruct (has_line (<[k := "O"]> (self_game w)));
    split; try tauto; split; congruence.
Qed.

Lemma triple_wins_single g (t : Z * Z * Z) :
  length g = 9%nat -> Forall (fun c : cell => String.length c = 1%nat) g ->
  in_grid t ->
  triple_wins g t = true <-> completed_by "X" g t \/ completed_by "O" g t.
Proof.
  intros Hlen Hone. destruct t as [[a b] c]. intros (Ha & Hb & Hc).
  destruct (lookup_in_grid _ a Hlen Ha) as [ga Hga].
  destruct (lookup_in_grid _ b Hlen Hb) as [gb Hgb].
  destruct (lookup_in_grid _ c Hlen Hc) as [gc Hgc].
  pose proof (proj1 (Forall_lookup _ _) Hone _ _ Hga) as La.
  pose proof (proj1 (Forall_lookup _ _) Hone _ _ Hgb) as Lb.
  pose proof (proj1 (Forall_lookup _ _) Hone _ _ Hgc) as Lc.
  unfold triple_wins, completed_by. rewrite Hga, Hgb, Hgc.
  destruct ga as [|xa [|? ?]]; try discriminate.
  destruct gb as [|xb [|? ?]]; try discriminate.
  destruct gc as [|xc [|? ?]]; try discriminate.
  cbn [String.append]. rewrite orb_true_iff, !String.eqb_eq.
  split.
  - intros [[= -> -> ->] | [= -> -> ->]]; [left | right]; now repeat split.
  - intros [([= ->] & [= ->] & [= ->]) | ([= ->] & [= ->] & [= ->])];
      [left | right]; reflexivity.
Qed.

(** X10.  On a 9-cell board of single-character cells, whatever the
    characters, [_isWinningMove] returns without changing the state, and
    returns [True] exactly when one of the eight triples is all ["X"] or all
    ["O"]: three equal cells of any other character are not a win. *)
Theorem isWinningMove_single_characters w :
  length (self_game w) = 9%nat ->
  Forall (fun c : cell => String.length c = 1%nat) (self_game w) ->
  exists v : bool,
    Game._isWinningMove w = (Ret v, w) /\
    (v = true <->
     exists t, In t Game.wins /\
               (completed_by "X" (self_game w) t \/
                completed_by "O" (self_game w) t)).
Proof.
  intros Hlen Hone. exists (has_line (self_game w)).
  split; [now apply isWinningMove_run|].
  unfold has_line. rewrite existsb_exists.
  split; intros (t & Ht & H); exists t; (split; [exact Ht|]);
    apply (triple_wins_single (self_game w) t Hlen Hone);
    try (apply (proj1 (List.Forall_forall _ _) wins_in_grid); exact Ht);
    exact H.
Qed.
End Attribution.

(** ** The demonstration loop [playTest] *)

Section PlayTest.
Context {Store : Type}.
Implicit Types (w : World Store) (g : board).

Lemma user_turn_blank (r : nat) w :
  length (self_game w) = 9%nat -> has_blank (self_game w) ->
  exists k : nat,
    self_game w !! k = Some " " /\
    Game.user_turn r w =
      (Ret (if has_line (<[k := "X"]> (self_game w)) then "X" else ""), [],
       mkWorld (<[k := "X"]> (self_game w)) (store w)).
Proof.
  intros Hlen Hblank.
  destruct (generateMove_blank r w Hblank) as (k & Hk & Hgen).
  pose proof (lookup_lt_Some _ _ _ Hk) as Hlt.
  exists k. split; [exact Hk|].
  unfold Game.user_turn. rewrite (bind_ret_run _ _ _ _ _ Hgen).
  rewrite (userMove_blank w (Z.of_nat k) Hlen) by (rewrite ?Nat2Z.id; first [lia | exact Hk]).
  now rewrite Nat2Z.id.
Qed.

(** From a 9-cell board with [2 m + 1] blank cells the loop ends within
    [m + 1] iterations, having printed one board per iteration and then the
    two closing lines. *)
Lemma playTest_loop_ends (fuel : nat) :
  forall (m : nat) (draws : nat -> nat) (n : nat) (out : list line) w,
    length (self_game w) = 9%nat ->
    count " " (self_game w) = (2 * m + 1)%nat ->
    (m < fuel)%nat ->
    exists (boards : list board) (ending : list line) (w' : World Store),
      Game.playTest_loop fuel draws n out w =
        Some (out ++ map print_game boards ++ ending, Ret tt, w') /\
      (length boards <= S m)%nat /\
      length (self_game w') = 9%nat /\
      store w' = store w /\
      game_over ending (self_game w').
Proof.
  induction fuel as [|fuel IH]; intros m draws n out w Hlen Hcount Hfuel; [lia|].
  assert (has_blank (self_game w)) as Hblank.
  { destruct (has_blank_dec (self_game w)) as [H|H]; [exact H|].
    apply count_blank_zero in H. lia. }
  destruct (user_turn_blank (draws n) w Hlen Hblank) as (k & Hk & Hturn).
  destruct (count_after_move (self_game w) k "X" Hk ltac:(discriminate))
    as (_ & Hb1 & _).
  cbn [Game.playTest_loop]. rewrite Hturn.
  set (g1 := <[k := "X"]> (self_game w)) in *.
  assert (length g1 = 9%nat) as Hlen1 by (unfold g1; now rewrite length_insert).
  destruct (has_line g1) eqn:Hline1.
  - (* the user wins *)
    exists [self_game w], [print_text "Winner is: X"; print_game g1],
      (mkWorld g1 (store w)).
    split; [simpl; now rewrite ?List.app_nil_r, <- ?List.app_assoc|].
    split; [simpl; lia|]. split; [exact Hlen1|]. split; [reflexivity|].
    right. exists "X". simpl. tauto.
  - destruct m as [|m].
    + (* the board is full: draw *)
      assert (~ has_blank g1) as Hfull by (apply count_blank_zero; lia).
      cbn [String.eqb].
      rewrite (computerMove_full (draws (S n)) (mkWorld g1 (store w)) Hfull).
      exists [self_game w], [print_text "It's a draw"; print_game g1],
        (mkWorld g1 (store w)).
      split; [simpl; now rewrite ?List.app_nil_r, <- ?List.app_assoc|].
      split; [simpl; lia|]. split; [exact Hlen1|]. split; [reflexivity|].
      left. simpl. tauto.
    + assert (has_blank g1) as Hblank1.
      { destruct (has_blank_dec g1) as [H|H]; [exact H|].
        apply count_blank_zero in H. lia. }
      destruct (computerMove_blank (draws (S n)) (mkWorld g1 (store w))
                  Hlen1 Hblank1) as (k2 & Hk2 & Hcomp).
      simpl in Hk2, Hcomp.
      destruct (count_after_move g1 k2 "O" Hk2 ltac:(discriminate))
        as (_ & Hb2 & _).
      cbn [String.eqb]. rewrite Hcomp.
      set (g2 := <[k2 := "O"]> g1) in *.
      assert (length g2 = 9%nat) as Hlen2
        by (unfold g2; now rewrite length_insert).
      destruct (has_line g2) eqn:Hline2.
      * (* the computer wins *)
        exists [self_game w], [print_text "Winner is: O"; print_game g2],
          (mkWorld g2 (store w)).
        split; [simpl; now rewrite ?List.app_nil_r, <- ?List.app_assoc|].
        split; [simpl; lia|]. split; [exact Hlen2|]. split; [reflexivity|].
        right. exists "O". simpl. tauto.
      * (* no result yet: next iteration *)
        cbn [String.eqb].
        destruct (IH m draws (S (S n))
                    ((out ++ [print_game (self_game w)]) ++ [])
                    (mkWorld g2 (store w)) Hlen2 ltac:(simpl; lia) ltac:(lia))
          as (boards & ending & w' & Hrun & Hn & Hlen' & Hstore & Hover).
        exists (self_game w :: boards), ending, w'.
        split; [rewrite Hrun; simpl; now rewrite ?List.app_nil_r, <- ?List.app_assoc|].
        split; [simpl; lia|]. split; [exact Hlen'|]. split; [exact Hstore|].
        exact Hover.
Qed.

(** X12.  [playTest] always ends, within five passes of its loop, for
    every sequence of random draws and from every state: it prints one
    board per pass and nothing else until the two closing lines, so the
    line ["Oops, that shouldn't happen"] is never printed and no exception
    escapes; it closes with ["It's a draw"] on a full board without a
    completed line, or with ["Winner is: X"] or ["Winner is: O"] on a board
    with one. *)
Theorem playTest_ends (fuel : nat) (draws : nat -> nat) w :
  (5 <= fuel)%nat ->
  exists (boards : list board) (ending : list line) (w' : World Store),
    Game.playTest fuel draws w =
      Some (map print_game boards ++ ending, Ret tt, w') /\
    (length boards <= 5)%nat /\
    ~ In (print_text "Oops, that shouldn't happen") (map print_game boards ++ ending) /\
    length (self_game w') = 9%nat /\
    store w' = store w /\
    game_over ending (self_game w').
Proof.
  intros Hfuel. unfold Game.playTest. rewrite newGame_run.
  destruct (playTest_loop_ends fuel 4 draws 0%nat []
              (mkWorld Game.blank_board (store w)) eq_refl eq_refl ltac:(lia))
    as (boards & ending & w' & Hrun & Hn & Hlen & Hstore & Hover).
  exists boards, ending, w'.
  split; [exact Hrun|]. split; [exact Hn|].
  split; [|split; [exact Hlen|split; [exact Hstore | exact Hover]]].
  intros Hin. apply in_app_or in Hin as [Hin | Hin].
  - apply List.in_map_iff in Hin as (g & Hg & _). discriminate.
  - destruct Hover as [(-> & _) | (r & Hr & -> & _)].
    + destruct Hin as [H | [H | []]]; discriminate.
    + destruct Hr as [-> | ->]; destruct Hin as [H | [H | []]]; discriminate.
Qed.
End PlayTest.

(** ** The first move of the computer *)

Section FirstMove.
Context {Store : Type}.
Implicit Types (w : World Store).

(** X14.  After [newGame()], [computerMove()] returns the empty string for
    every draw; the board then holds exactly one ["O"], in one of the nine
    cells, and eight blank cells. *)
Theorem newGame_then_computerMove (r : nat) w :
  exists (k : nat) (w1 w2 : World Store),
    Game.newGame w = (Ret Game.blank_board, w1) /\
    Game.computerMove r w1 = (Ret "", w2) /\
    (k < 9)%nat /\
    self_game w2 = <[k := "O"]> Game.blank_board /\
    count "O" (self_game w2) = 1%nat /\
    count " " (self_game w2) = 8%nat /\
    store w2 = store w.
Proof.
  destruct (computerMove_blank r (mkWorld Game.blank_board (store w)) eq_refl)
    as (k & Hk & Hrun); [exists 0%nat; reflexivity|].
  simpl in Hk, Hrun.
  exists k, (mkWorld Game.blank_board (store w)),
    (mkWorld (<[k := "O"]> Game.blank_board) (store w)).
  split; [reflexivity|]. rewrite Hrun. clear Hrun.
  do 9 (destruct k as [|k]; [repeat split; first [reflexivity | lia]|]).
  discriminate.
Qed.
End FirstMove.

(** ** Exceptions that [restoreGame] lets through *)

Section RestoreRaises.
Context {Store : Type} {P : Persistence Store}.
Implicit Types (w : World Store).

(** X11.  [restoreGame] catches [IOError] only: it raises exactly when
    [oxo_data.restoreGame] raises an exception of another class, and then
    it raises that exception and leaves the board as it was. *)
Theorem restoreGame_raises_iff w :
  (raised (fst (Game.restoreGame w)) = true <->
   exists e : exn,
     fst (data_restoreGame (store w)) = Raise e /\
     isinstance_IOError e = false) /\
  (forall (e : exn) (s' : Store),
     data_restoreGame (store w) = (Raise e, s') ->
     isinstance_IOError e = false ->
     Game.restoreGame w = (Raise e, mkWorld (self_game w) s')).
Proof.
  split; [|intros e s'; apply restoreGame_other_exception].
  destruct (data_restoreGame (store w)) as [[snap|e] s'] eqn:Hload.
  - destruct (Nat.eq_dec (length snap) 9%nat) as [H9|H9];
      [rewrite (restoreGame_loaded w snap s' Hload H9)
      |rewrite (restoreGame_wrong_length w snap s' Hload H9)];
      simpl; (split; [discriminate | intros (e & He & _); discriminate]).
  - destruct (isinstance_IOError e) eqn:He.
    + rewrite (restoreGame_IOError w e s' Hload He). simpl.
      split; [discriminate | intros (e' & [= <-] & He'); congruence].
    + rewrite (restoreGame_other_exception w e s' Hload He). simpl.
      split; [intros _; now exists e | reflexivity].
Qed.
End RestoreRaises.

(** ** [testcode.py] *)

(** X13.  [double] returns an even integer, so [assertEqual(double(x), -5)]
    fails for every integer [x]; [test_double] passes its first three
    assertions and fails on the fourth, comparing [-4] with [-5]. *)
Theorem test_double_fails :
  (forall x : Z, Z.even (testcode.double x) = true) /\
  (forall x : Z,
     testcode.assertEquals [ (testcode.double x, -5) ] =
       testcode.failed (testcode.double x) (-5)) /\
  testcode.assertEquals
    [ (testcode.double 2, 4); (testcode.double 4, 8); (testcode.double 0, 0) ] =
    testcode.passed /\
  testcode.test_double = testcode.failed (-4) (-5).
Proof.
  assert (forall x : Z, Z.even (testcode.double x) = true) as Heven
    by (intros x; unfold testcode.double; now rewrite Z.even_mul).
  split; [exact Heven|]. split; [|split; reflexivity].
  intros x. cbn [testcode.assertEquals].
  destruct (Z.eqb_spec (testcode.double x) (-5)) as [E|_]; [|reflexivity].
  specialize (Heven x). rewrite E in Heven. discriminate.
Qed.

(** ** The further properties at concrete boards *)

(** [userMove(-1)] on "XO XO XO " is [userMove(8)]: the last cell. *)
Lemma userMove_negative_index_witness :
  Game.userMove (-1) (world_of "XO XO XO " None) =
    Game.userMove (Z.of_nat (length (self_game (world_of "XO XO XO " None))) + -1)
      (world_of "XO XO XO " None) /\
  Game.userMove (-1) (world_of "XO XO XO " None) =
    (Ret "X", world_of "XO XO XOX" None).
Proof.
  split; [|reflexivity].
  apply (userMove_negative_index (world_of "XO XO XO " None) (-1)). simpl. lia.
Defined.


(** [userMove(2)] on "XX O O   ", completing the top row. *)
Lemma userMove_places_X_witness :
  exists (res : string) (w' : World oxo_data.Disk),
    Game.userMove 2 (world_of "XX O O   " None) = (Ret res, w') /\
    self_game w' !! Z.to_nat 2 = Some "X" /\
    (forall j : nat, j <> Z.to_nat 2 ->
       self_game w' !! j = self_game (world_of "XX O O   " None) !! j) /\
    length (self_game w') = 9%nat /\
    store w' = store (world_of "XX O O   " None) /\
    (res = "X" \/ res = "") /\
    (res = "X" <-> Game._isWinningMove w' = (Ret true, w')).
Proof.
  apply (userMove_places_X (world_of "XX O O   " None) 2);
    [reflexivity | lia | reflexivity].
Defined.

(** [userMove(2)] twice. *)
Lemma userMove_cannot_repeat_witness :
  Game.userMove 2 (world_of "XX O O   " None) =
    (Ret "X", world_of "XXXO O   " None) /\
  Game.userMove 2 (world_of "XXXO O   " None) =
    (Raise (ValueError "Invalid cell"), world_of "XXXO O   " None).
Proof.
  split; [reflexivity|].
  apply (userMove_cannot_repeat (world_of "XX O O   " None) 2 "X"). reflexivity.
Defined.

(** Cell 1 of "XO XO XO " holds ["O"]: it survives [userMove(1)],
    [userMove(2)] and [computerMove()]. *)
Lemma moves_never_overwrite_witness :
  (self_game (snd (Game.userMove 1 (world_of "XO XO XO " None))) !! 1%nat = Some "O" /\
   self_game (snd (Game.computerMove 0 (world_of "XO XO XO " None))) !! 1%nat = Some "O") /\
  (self_game (snd (Game.userMove 2 (world_of "XO XO XO " None))) !! 1%nat = Some "O" /\
   self_game (snd (Game.computerMove 0 (world_of "XO XO XO " None))) !! 1%nat = Some "O").
Proof.
  split.
  - apply (moves_never_overwrite (world_of "XO XO XO " None) 1 0 1 "O");
      [reflexivity | discriminate].
  - apply (moves_never_overwrite (world_of "XO XO XO " None) 2 0 1 "O");
      [reflexivity | discriminate].
Defined.

(** The counts of "XO XO XO " (three of each) around [userMove(2)] and
    [computerMove()]. *)
Lemma moves_count_pieces_witness :
  ((exists e : exn,
      Game.userMove 2 (world_of "XO XO XO " None) =
        (Raise e, world_of "XO XO XO " None)) \/
   (exists (res : string) (w' : World oxo_data.Disk),
      Game.userMove 2 (world_of "XO XO XO " None) = (Ret res, w') /\
      count "X" (self_game w') = S (count "X" (self_game (world_of "XO XO XO " None))) /\
      S (count " " (self_game w')) = count " " (self_game (world_of "XO XO XO " None)) /\
      count "O" (self_game w') = count "O" (self_game (world_of "XO XO XO " None)))) /\
  (Game.computerMove 0 (world_of "XO XO XO " None) =
     (Ret "D", world_of "XO XO XO " None) \/
   (exists (res : string) (w' : World oxo_data.Disk),
      Game.computerMove 0 (world_of "XO XO XO " None) = (Ret res, w') /\
      res <> "D" /\
      count "O" (self_game w') = S (count "O" (self_game (world_of "XO XO XO " None))) /\
      S (count " " (self_game w')) = count " " (self_game (world_of "XO XO XO " None)) /\
      count "X" (self_game w') = count "X" (self_game (world_of "XO XO XO " None)))).
Proof.
  apply (moves_count_pieces (world_of "XO XO XO " None) 2 0). reflexivity.
Defined.

(** [userMove(2)] on "XX O O   ": the row 0, 1, 2 runs through cell 2. *)
Lemma userMove_wins_through_cell_witness :
  (fst (Game.userMove 2 (world_of "XX O O   " None)) = Ret "X" <->
   exists t, In t Game.wins /\ through (Z.to_nat 2) t /\
             completed_by "X"
               (self_game (snd (Game.userMove 2 (world_of "XX O O   " None)))) t) /\
  (fst (Game.userMove 2 (world_of "XX O O   " None)) <> Ret "X" ->
   fst (Game.userMove 2 (world_of "XX O O   " None)) = Ret "").
Proof.
  apply (userMove_wins_through_cell (world_of "XX O O   " None) 2);
    [reflexivity | symbols | reflexivity | lia | reflexivity].
Defined.

(** [computerMove()] on "OO XX    ". *)
Lemma computerMove_wins_through_cell_witness :
  exists k : nat,
    self_game (world_of "OO XX    " None) !! k = Some " " /\
    self_game (snd (Game.computerMove 0 (world_of "OO XX    " None))) =
      <[k := "O"]> (self_game (world_of "OO XX    " None)) /\
    (fst (Game.computerMove 0 (world_of "OO XX    " None)) = Ret "O" <->
     exists t, In t Game.wins /\ through k t /\
               completed_by "O"
                 (self_game (snd (Game.computerMove 0 (world_of "OO XX    " None)))) t) /\
    (fst (Game.computerMove 0 (world_of "OO XX    " None)) <> Ret "O" ->
     fst (Game.computerMove 0 (world_of "OO XX    " None)) = Ret "").
Proof.
  apply (computerMove_wins_through_cell 0 (world_of "OO XX    " None));
    [reflexivity | symbols | reflexivity | exists 2%nat; reflexivity].
Defined.

(** A board whose top row is three times the character Z. *)
Lemma isWinningMove_single_characters_witness :
  exists v : bool,
    Game._isWinningMove (world_of "ZZZXO    " None) =
      (Ret v, world_of "ZZZXO    " None) /\
    (v = true <->
     exists t, In t Game.wins /\
               (completed_by "X" (self_game (world_of "ZZZXO    " None)) t \/
                completed_by "O" (self_game (world_of "ZZZXO    " None)) t)).
Proof.
  apply (isWinningMove_single_characters (world_of "ZZZXO    " None));
    [reflexivity | simpl; repeat (apply List.Forall_cons; [reflexivity|]);
                   apply List.Forall_nil].
Defined.

(** [restoreGame()] when the load raises [ValueError]. *)
Lemma restoreGame_raises_iff_witness :
  @Game.restoreGame unit (raising_persistence (ValueError "bad data"))
    (mkWorld (pylist "XO XO XO ") tt) =
  (Raise (ValueError "bad data"), mkWorld (pylist "XO XO XO ") tt).
Proof.
  apply (proj2 (@restoreGame_raises_iff unit
                  (raising_persistence (ValueError "bad data"))
                  (mkWorld (pylist "XO XO XO ") tt))
           (ValueError "bad data") tt);
    reflexivity.
Defined.

(** [playTest()] with every draw 0, five passes allowed. *)
Lemma playTest_ends_witness :
  exists (boards : list board) (ending : list line) (w' : World oxo_data.Disk),
    Game.playTest 5 (fun _ => 0%nat) (world_of "XO XO XO " None) =
      Some (map print_game boards ++ ending, Ret tt, w') /\
    (length boards <= 5)%nat /\
    ~ In (print_text "Oops, that shouldn't happen")
         (map print_game boards ++ ending) /\
    length (self_game w') = 9%nat /\
    store w' = store (world_of "XO XO XO " None) /\
    game_over ending (self_game w').
Proof.
  apply (playTest_ends 5 (fun _ => 0%nat) (world_of "XO XO XO " None)). lia.
Defined.
